(** * Route optimisation for a single sales representative

    A shallow embedding of [Scripts/src/vrp_solver.py] (class [VRPSolver]) and
    of the geometric fallback of [Scripts/src/distance_matrix.py].

    The solver class builds a routing model for the OR-Tools constraint
    solver, lets the library search, and reads the answer back.  The library
    is not part of the repository: its routing model is described here by
    the constraints it is documented to enforce ([Routing.satisfies]), and
    every theorem about a "successful solve" is a theorem about an
    assignment that meets the constraints of the model that [solve] builds. *)

From Stdlib Require Import String List Sorted ZArith QArith Qround Lia Bool Arith PeanoNat.
From Stdlib Require Import Reals Lra.
From Stdlib Require Import Permutation Ascii.
From Stdlib Require Lqa.
Import ListNotations.

(** ** Numbers as Python and numpy convert them *)

Module Py.

Local Open Scope Z_scope.

(** [int(x)] on a float, and [ndarray.astype(int)] entry by entry: the
    fractional part is dropped, rounding toward zero.  A float is taken as
    the rational it denotes, and a product of floats as the exact
    product. *)
Definition int (x : Q) : Z := Z.quot (Qnum x) (Zpos (Qden x)).

(** [ndarray.astype(int).tolist()] for a two-dimensional array. *)
Definition astype_int_tolist (m : list (list Q)) : list (list Z) :=
  map (map int) m.

(** [m[i][j]] for non-negative [i], [j]; [None] stands for IndexError. *)
Definition getitem2 {A : Type} (m : list (list A)) (i j : nat) : option A :=
  match nth_error m i with
  | Some row => nth_error row j
  | None => None
  end.

(** [enumerate(l)]. *)
Definition enumerate {A : Type} (l : list A) : list (nat * A) :=
  combine (seq 0 (length l)) l.

End Py.

(** ** The data model *)

Record Data : Type := mkData {
  distance_matrix : list (list Z);
  time_matrix : list (list Z);
  time_windows : list (Z * Z);
  service_times : list Z;
  num_vehicles : nat;
  depot : nat;
  vehicle_capacity : Z;
  vehicle_time_capacity : Z
}.

(** [VRPSolver.create_data_model]. *)
Definition create_data_model
    (distance_matrix0 time_matrix0 : list (list Q))
    (time_windows0 : list (Z * Z)) (service_times0 : list Z)
    (max_distance : Q) (max_time : Z) : Data :=
  {| distance_matrix := Py.astype_int_tolist distance_matrix0;
     time_matrix := Py.astype_int_tolist time_matrix0;
     time_windows := time_windows0;
     service_times := service_times0;
     num_vehicles := 1;
     depot := 0;
     vehicle_capacity := Py.int (max_distance * 1000);
     vehicle_time_capacity := max_time |}.


(** ** The routing library, as far as [solve] uses it

    One vehicle that leaves from and returns to one depot.  The index
    manager gives every node its own number as index and gives the return
    to the depot the extra index [num_nodes]. *)

Module Routing.

Record IndexManager : Type := mkManager {
  num_nodes : nat;
  start_node : nat
}.

(** [pywrapcp.RoutingIndexManager(num_nodes, num_vehicles, depot)].  Only
    the one-vehicle manager is described; the library rejects a depot that
    is not a node. *)
Definition RoutingIndexManager (n vehicles dep : nat) : option IndexManager :=
  if (vehicles =? 1)%nat && (dep <? n)%nat
  then Some {| num_nodes := n; start_node := dep |}
  else None.

Definition Size (mg : IndexManager) : nat := num_nodes mg.
Definition Start (mg : IndexManager) : nat := start_node mg.
Definition End (mg : IndexManager) : nat := num_nodes mg.
Definition IsEnd (mg : IndexManager) (index : nat) : bool :=
  (Size mg <=? index)%nat.

Definition IndexToNode (mg : IndexManager) (index : nat) : nat :=
  if (index <? num_nodes mg)%nat then index else start_node mg.

Definition NodeToIndex (mg : IndexManager) (node : nat) : option nat :=
  if (node <? num_nodes mg)%nat then Some node else None.

(** A dimension: a transit per arc, a bound on the slack taken at a stop,
    a capacity for the cumulated value, whether the cumulated value starts
    at zero, and the ranges put on single cumulated variables by
    [CumulVar(index).SetRange(lo, hi)]. *)
Record Dimension : Type := mkDimension {
  transit : nat -> nat -> option Z;
  slack_max : Z;
  capacity : Z;
  fix_start_cumul_to_zero : bool;
  ranges : list (nat * (Z * Z))
}.

Record Model : Type := mkModel {
  manager : IndexManager;
  arc_cost : nat -> nat -> option Z;
  dimensions : list (string * Dimension)
}.

(** What the solution object answers: [Value(NextVar(index))] and
    [Min(CumulVar(index))] of the dimension of a given name. *)
Record Assignment : Type := mkAssignment {
  Value_NextVar : nat -> nat;
  Min_CumulVar : string -> nat -> Z
}.

Section Constraints.

Variable mg : IndexManager.
Variable next : nat -> nat.

(** Following the successors from [index] arrives at the end of the route
    within [fuel] steps. *)
Fixpoint reaches_end (fuel : nat) (index : nat) : bool :=
  IsEnd mg index ||
  match fuel with
  | O => false
  | S fuel' => reaches_end fuel' (next index)
  end.

(** The path constraints of the routing model: a successor is an index
    of the model and never the start; no two indices share a successor;
    no index lies on a cycle. *)
Definition nexts_ok : bool :=
  let indices := seq 0 (Size mg) in
  forallb (fun i => (next i <=? End mg)%nat && negb (next i =? Start mg)%nat)
          indices
  && forallb (fun i =>
       forallb (fun j => implb (next i =? next j)%nat (i =? j)%nat) indices)
       indices
  && forallb (reaches_end (Size mg)) indices.

Definition in_range (lo hi x : Z) : bool := ((lo <=? x) && (x <=? hi))%Z.

(** The constraints of one dimension on the cumulated values: each lies
    in [0, capacity]; along an arc the value grows by the transit plus a
    slack in [0, slack_max]; the ranges set on single variables hold. *)
Definition dimension_ok (dim : Dimension) (cumul : nat -> Z) : bool :=
  forallb (fun i => in_range 0 (capacity dim) (cumul i)) (seq 0 (S (Size mg)))
  && forallb (fun i =>
       match transit dim i (next i) with
       | Some t => in_range 0 (slack_max dim) (cumul (next i) - cumul i - t)
       | None => false
       end) (seq 0 (Size mg))
  && (if fix_start_cumul_to_zero dim then (cumul (Start mg) =? 0)%Z else true)
  && forallb (fun r => in_range (fst (snd r)) (snd (snd r)) (cumul (fst r)))
             (ranges dim).

End Constraints.

Definition satisfies (m : Model) (a : Assignment) : bool :=
  nexts_ok (manager m) (Value_NextVar a)
  && forallb (fun nd =>
       dimension_ok (manager m) (Value_NextVar a) (snd nd)
                    (Min_CumulVar a (fst nd)))
       (dimensions m).

(** How a search ends.  [SolveWithParameters] hands back a solution object
    or nothing; the status is kept by the model. *)
Inductive Status : Type :=
| ROUTING_SUCCESS
| ROUTING_FAIL
| ROUTING_FAIL_TIMEOUT
| ROUTING_INVALID.

Record SearchResult : Type := mkSearchResult {
  status : Status;
  solution : option Assignment
}.

Inductive FirstSolutionStrategy : Type := PATH_CHEAPEST_ARC.
Inductive LocalSearchMetaheuristic : Type := GUIDED_LOCAL_SEARCH.

Record SearchParameters : Type := mkSearchParameters {
  first_solution_strategy : FirstSolutionStrategy;
  local_search_metaheuristic : LocalSearchMetaheuristic;
  time_limit_seconds : Z;
  log_search : bool
}.

(** The library's part of the bargain: a solution object is handed back
    exactly with status success, and it meets the constraints of the
    model; a failure hands back nothing. *)
Definition sound (search : Model -> SearchParameters -> SearchResult) : Prop :=
  forall m p,
    match solution (search m p) with
    | Some a => status (search m p) = ROUTING_SUCCESS /\ satisfies m a = true
    | None => status (search m p) <> ROUTING_SUCCESS
    end.

End Routing.

(** ** The solver class *)

Module VRPSolver.

Import Routing.

Record Stop : Type := mkStop {
  location_index : nat;
  arrival_time : Z;
  cumulative_distance : Z
}.

Record Solution : Type := mkSolution {
  route : list Stop;
  total_distance_km : Q;
  total_time_minutes : Z;
  num_locations : nat
}.

(** What a call of [solve] comes to: an exception out of the set-up, a
    returned value (a solution, or Python's [None]), or an extraction loop
    still running when the fuel is spent. *)
Inductive Outcome : Type :=
| Raises
| Unfinished
| Returns (r : option Solution).

Section Model.

Variable data : Data.
Variable mg : IndexManager.

(** The nested function [distance_callback] of [solve]. *)
Definition distance_callback (from_index to_index : nat) : option Z :=
  let from_node := IndexToNode mg from_index in
  let to_node := IndexToNode mg to_index in
  Py.getitem2 (distance_matrix data) from_node to_node.

(** The nested function [time_callback] of [solve]. *)
Definition time_callback (from_index to_index : nat) : option Z :=
  let from_node := IndexToNode mg from_index in
  let to_node := IndexToNode mg to_index in
  match Py.getitem2 (time_matrix data) from_node to_node,
        nth_error (service_times data) from_node with
  | Some travel_time, Some service_time =>
      Some (Py.int (inject_Z (travel_time + service_time)))
  | _, _ => None
  end.

(** The loop over [enumerate(data['time_windows'])]: the ranges set on
    the cumulated time of every location but the depot. *)
Fixpoint client_ranges (windows : list (nat * (Z * Z)))
  : option (list (nat * (Z * Z))) :=
  match windows with
  | [] => Some []
  | (location_idx, time_window) :: rest =>
      if (location_idx =? depot data)%nat then client_ranges rest
      else
        match NodeToIndex mg location_idx with
        | Some index =>
            option_map (cons (index, time_window)) (client_ranges rest)
        | None => None
        end
  end.

(** The range set for the depot, on the index [NodeToIndex(depot)]. *)
Definition depot_range : option (nat * (Z * Z)) :=
  let depot_idx := depot data in
  match NodeToIndex mg depot_idx, nth_error (time_windows data) depot_idx with
  | Some index, Some time_window => Some (index, time_window)
  | _, _ => None
  end.

End Model.

(** The dimension 'Distance': [AddDimension(distance_callback_index, 0,
    data['vehicle_capacity'], True, 'Distance')]. *)
Definition distance_dimension (data : Data) (mg : IndexManager) : Dimension :=
  {| transit := distance_callback data mg;
     slack_max := 0;
     capacity := vehicle_capacity data;
     fix_start_cumul_to_zero := true;
     ranges := [] |}.

(** The dimension 'Time': [AddDimension(time_callback_index, 60,
    data['vehicle_time_capacity'], False, 'Time')], with the ranges set
    from the time windows. *)
Definition time_dimension (data : Data) (mg : IndexManager)
    (clients : list (nat * (Z * Z))) (dep : nat * (Z * Z)) : Dimension :=
  {| transit := time_callback data mg;
     slack_max := 60;
     capacity := vehicle_time_capacity data;
     fix_start_cumul_to_zero := false;
     ranges := clients ++ [dep] |}.

(** The model that [solve] has built when it calls the search: the arc
    cost, the dimension 'Distance' and the dimension 'Time' with its
    time windows.  [None] when the set-up raises.  The two calls of
    [AddVariableMinimizedByFinalizer] and the search parameters choose among
    the assignments of the model and add no constraint to it. *)
Definition routing_model (data : Data) : option Model :=
  match RoutingIndexManager (List.length (distance_matrix data))
                            (num_vehicles data) (depot data) with
  | None => None
  | Some mg =>
      match client_ranges data mg (Py.enumerate (time_windows data)),
            depot_range data mg with
      | Some clients, Some dep =>
          Some {| manager := mg;
                  arc_cost := distance_callback data mg;
                  dimensions :=
                    [ ("Distance"%string, distance_dimension data mg);
                      ("Time"%string, time_dimension data mg clients dep) ] |}
      | _, _ => None
      end
  end.

(** The index manager of a data model whose depot is one of its
    locations. *)
Definition manager_of (data : Data) : IndexManager :=
  {| num_nodes := List.length (distance_matrix data);
     start_node := depot data |}.

Section Extract.

Variable m : Model.
Variable a : Assignment.

Definition stop_at (index : nat) : Stop :=
  {| location_index := IndexToNode (manager m) index;
     arrival_time := Min_CumulVar a "Time" index;
     cumulative_distance := Min_CumulVar a "Distance" index |}.

(** The [while not IsEnd(index)] loop; [fuel] bounds its iterations. *)
Fixpoint extract_loop (fuel : nat) (index : nat) (route : list Stop)
  : option (list Stop * nat) :=
  if IsEnd (manager m) index then Some (route, index)
  else
    match fuel with
    | O => None
    | S fuel' =>
        extract_loop fuel' (Value_NextVar a index) (route ++ [stop_at index])
    end.

(** [VRPSolver._extract_solution]. *)
Definition _extract_solution (fuel : nat) : option Solution :=
  match extract_loop fuel (Start (manager m)) [] with
  | None => None
  | Some (route0, index) =>
      let route1 := route0 ++ [stop_at index] in
      Some {| route := route1;
              total_distance_km :=
                inject_Z (Min_CumulVar a "Distance" index) / 1000;
              total_time_minutes := Min_CumulVar a "Time" index;
              num_locations := List.length route1 - 1 |}
  end.

End Extract.

(** The search parameters set by [solve]. *)
Definition search_parameters (time_limit : Z) : SearchParameters :=
  {| first_solution_strategy := PATH_CHEAPEST_ARC;
     local_search_metaheuristic := GUIDED_LOCAL_SEARCH;
     time_limit_seconds := time_limit;
     log_search := true |}.

(** [VRPSolver.solve], given the library's search. *)
Definition solve (search : Model -> SearchParameters -> SearchResult)
    (fuel : nat) (data : Data) (time_limit : Z) : Outcome :=
  match routing_model data with
  | None => Raises
  | Some m =>
      match solution (search m (search_parameters time_limit)) with
      | Some a =>
          match _extract_solution m a fuel with
          | Some s => Returns (Some s)
          | None => Unfinished
          end
      | None => Returns None
      end
  end.

(** A search that proposes one given assignment and checks it against
    the model; used to run [solve] on concrete instances. *)
Definition proposing (a : Assignment) (m : Model) (_ : SearchParameters)
  : SearchResult :=
  if satisfies m a
  then {| status := ROUTING_SUCCESS; solution := Some a |}
  else {| status := ROUTING_FAIL; solution := None |}.

(** A search that gives up when its time is over. *)
Definition giving_up (_ : Model) (_ : SearchParameters) : SearchResult :=
  {| status := ROUTING_FAIL_TIMEOUT; solution := None |}.

(** An assignment written as tables: successors, then the cumulated time
    and the cumulated distance per index. *)
Definition assignment_of (nexts : list nat) (times distances : list Z)
  : Assignment :=
  {| Value_NextVar := fun i => nth i nexts 0%nat;
     Min_CumulVar := fun name i =>
       if String.eqb name "Time" then nth i times 0%Z
       else nth i distances 0%Z |}.

End VRPSolver.

(** ** Recomputing a route from the matrices

    The sums that the cumulated values of a route are compared with: the
    entries of a table added up over the consecutive arcs of a visiting
    order. *)

Module Recompute.

Local Open Scope Z_scope.

Section Table.

Variable entry : nat -> nat -> option Z.

(** The sum of the entries over the consecutive arcs of [locs]. *)
Fixpoint arc_sum (locs : list nat) : option Z :=
  match locs with
  | from :: (to :: _) as rest =>
      match entry from to, arc_sum rest with
      | Some v, Some total => Some (v + total)
      | _, _ => None
      end
  | _ => Some 0
  end.

(** The running sums met after [from] when [rest] is visited. *)
Fixpoint running (from : nat) (acc : Z) (rest : list nat) : option (list Z) :=
  match rest with
  | [] => Some []
  | to :: rest' =>
      match entry from to with
      | Some v => option_map (cons (acc + v)) (running to (acc + v) rest')
      | None => None
      end
  end.

(** The cumulated value at every stop of [locs], starting from zero. *)
Definition cumulative (locs : list nat) : option (list Z) :=
  match locs with
  | [] => Some []
  | from :: rest => option_map (cons 0) (running from 0 rest)
  end.

End Table.

(** The time an arc takes: the travel time plus the service at its
    origin. *)
Definition arc_time (data : Data) (from to : nat) : option Z :=
  match Py.getitem2 (time_matrix data) from to,
        nth_error (service_times data) from with
  | Some travel_time, Some service_time => Some (travel_time + service_time)
  | _, _ => None
  end.

Definition arc_distance (data : Data) (from to : nat) : option Z :=
  Py.getitem2 (distance_matrix data) from to.

End Recompute.

(** ** The matrix provider

    [Scripts/src/distance_matrix.py].  Floating-point numbers are taken as
    the real numbers they stand for. *)

Module DistanceMatrixCalculator.

Local Open Scope R_scope.

Record Matrices : Type := mkMatrices {
  distances : list (list R);
  durations : list (list R);
  locations : list (R * R)
}.

(** [l[i] = f(l[i])]; the loops below never leave the range. *)
Fixpoint update {A : Type} (l : list A) (i : nat) (f : A -> A) : list A :=
  match l, i with
  | [], _ => []
  | x :: rest, O => f x :: rest
  | x :: rest, S i' => x :: update rest i' f
  end.

(** [m[i][j] = v]. *)
Definition setitem2 (m : list (list R)) (i j : nat) (v : R) : list (list R) :=
  update m i (fun row => update row j (fun _ => v)).

(** [np.zeros((n, k))]. *)
Definition zeros (n k : nat) : list (list R) := repeat (repeat 0 k) n.

(** [np.radians]. *)
Definition radians (x : R) : R := x * PI / 180.

Section Fallback.

Variable locs : list (R * R).

(** The body of the two loops for one pair [i], [j]. *)
Definition fallback_cell (i j : nat)
    (state : list (list R) * list (list R))
  : list (list R) * list (list R) :=
  if (i =? j)%nat then state
  else
    let '(lat1, lon1) := nth i locs (0, 0) in
    let '(lat2, lon2) := nth j locs (0, 0) in
    let dlat := (lat2 - lat1) * 111 in
    let dlon := (lon2 - lon1) * 111 * cos (radians lat1) in
    let dist := sqrt (dlat ^ 2 + dlon ^ 2) in
    (setitem2 (fst state) i j dist,
     setitem2 (snd state) i j (dist / 40 * 60)).

(** [DistanceMatrixCalculator._euclidean_fallback]. *)
Definition _euclidean_fallback : Matrices :=
  let n := List.length locs in
  let filled :=
    fold_left
      (fun state i =>
         fold_left (fun state' j => fallback_cell i j state') (seq 0 n) state)
      (seq 0 n) (zeros n n, zeros n n) in
  {| distances := fst filled;
     durations := snd filled;
     locations := locs |}.

End Fallback.

(** What the routing service answered: the request raised, or a document
    came back, with a code that is 'Ok' or not. *)
Inductive Response : Type :=
| RequestException
| Answer (code_ok : bool) (distances_m durations_s : list (list R)).

(** [DistanceMatrixCalculator.get_matrix]; [None] when the exception for
    a code that is not 'Ok' leaves the method. *)
Definition get_matrix (locs : list (R * R)) (response : Response)
  : option Matrices :=
  match response with
  | RequestException => Some (_euclidean_fallback locs)
  | Answer true distances_m durations_s =>
      Some {| distances := map (map (fun x => x / 1000)) distances_m;
              durations := map (map (fun x => x / 60)) durations_s;
              locations := locs |}
  | Answer false _ _ => None
  end.

End DistanceMatrixCalculator.

(** ** The conditions the specification lists for a valid input

    Written from the words of the specification, to be compared with what
    the code accepts: both matrices square of one size [N] with zero
    diagonal, [N] time windows, [N] service durations, positive budgets. *)

Module Stated.

Definition square_with_zero_diagonal (n : nat) (m : list (list Q)) : bool :=
  (List.length m =? n)%nat
  && forallb (fun row => (List.length row =? n)%nat) m
  && forallb (fun i =>
       match Py.getitem2 m i i with
       | Some q => Qeq_bool q 0
       | None => false
       end) (seq 0 n).

Definition valid_input (dm tm : list (list Q)) (tw : list (Z * Z))
    (st : list Z) (max_distance : Q) (max_time : Z) : bool :=
  let n := List.length dm in
  square_with_zero_diagonal n dm
  && square_with_zero_diagonal n tm
  && (List.length tw =? n)%nat
  && (List.length st =? n)%nat
  && negb (Qle_bool max_distance 0)
  && (0 <? max_time)%Z.

End Stated.

(** ** Conditions on the inputs *)

Module Inputs.

Definition nonnegative_matrix (m : list (list Q)) : bool :=
  forallb (forallb (Qle_bool 0)) m.

Definition nonnegative_list (l : list Z) : bool := forallb (Z.leb 0) l.

(** A matrix of [n] rows of [n] entries, none negative, zero on the
    diagonal. *)
Definition well_shaped (n : nat) (m : list (list R)) : Prop :=
  List.length m = n /\
  (forall row, In row m -> List.length row = n) /\
  (forall i j x, Py.getitem2 m i j = Some x -> (0 <= x)%R /\ (i = j -> x = 0%R)).

End Inputs.

(** ** The walk along the successors *)

Module Path.

Local Open Scope nat_scope.

(** [chain N next i l]: following the successors from [i], the indices
    met before the end of the route, which is any index from [N] on, are
    those of [l], in this order. *)
Inductive chain (N : nat) (next : nat -> nat) : nat -> list nat -> Prop :=
| chain_end : forall i, N <= i -> chain N next i []
| chain_step : forall i l,
    i < N -> chain N next (next i) l -> chain N next i (i :: l).

End Path.

(** ** A day with two clients

    The depot and two clients, distances in metres with a fractional part,
    times in minutes, every window the whole working day. *)

Module Day.

Import Routing VRPSolver.

Definition distances : list (list Q) :=
  [ [0; 2001 # 2; 2000]; [2001 # 2; 0; 1500]; [2000; 1500; 0] ]%Q.

Definition durations : list (list Q) :=
  [ [0; 10; 20]; [10; 0; 15]; [20; 15; 0] ]%Q.

Definition windows : list (Z * Z) := [ (0, 480); (0, 480); (0, 480) ]%Z.

Definition services : list Z := [ 0; 30; 30 ]%Z.

Definition data : Data :=
  create_data_model distances durations windows services 100%Q 480%Z.

(** Depot, first client, second client, depot. *)
Definition plan : Assignment :=
  assignment_of [1; 2; 3]%nat [0; 10; 55; 105]%Z [0; 1000; 2500; 4500]%Z.

End Day.

(** ** A depot that closes early

    One client twenty minutes away; the depot window ends after ten minutes
    while the time budget is a hundred. *)

Module Late.

Import Routing VRPSolver.

Definition distances : list (list Q) := [ [0; 1000]; [1000; 0] ]%Q.
Definition durations : list (list Q) := [ [0; 20]; [20; 0] ]%Q.
Definition windows : list (Z * Z) := [ (0, 10); (0, 100) ]%Z.
Definition services : list Z := [ 0; 0 ]%Z.

Definition data : Data :=
  create_data_model distances durations windows services 100%Q 100%Z.

Definition plan : Assignment :=
  assignment_of [1; 2]%nat [0; 20; 40]%Z [0; 1000; 2000]%Z.

End Late.

(** ** A distance budget of one

    One client five hundred units away and a distance budget of 1. *)

Module Tight.

Import Routing VRPSolver.

Definition distances : list (list Q) := [ [0; 500]; [500; 0] ]%Q.
Definition durations : list (list Q) := [ [0; 5]; [5; 0] ]%Q.
Definition windows : list (Z * Z) := [ (0, 100); (0, 100) ]%Z.
Definition services : list Z := [ 0; 0 ]%Z.

Definition data : Data :=
  create_data_model distances durations windows services 1%Q 100%Z.

Definition plan : Assignment :=
  assignment_of [1; 2]%nat [0; 5; 10]%Z [0; 500; 1000]%Z.

End Tight.

(** ** A client that opens late

    One client ten minutes away whose window opens at minute 50; the
    vehicle waits forty minutes before being served for five. *)

Module Waiting.

Import Routing VRPSolver.

Definition distances : list (list Q) := [ [0; 1000]; [1000; 0] ]%Q.
Definition durations : list (list Q) := [ [0; 10]; [10; 0] ]%Q.
Definition windows : list (Z * Z) := [ (0, 100); (50, 60) ]%Z.
Definition services : list Z := [ 0; 5 ]%Z.

Definition data : Data :=
  create_data_model distances durations windows services 100%Q 100%Z.

Definition plan : Assignment :=
  assignment_of [1; 2]%nat [0; 50; 65]%Z [0; 1000; 2000]%Z.

End Waiting.

(** ** A malformed input

    One location; a distance matrix with two columns and a diagonal that is
    not zero, and two service durations. *)

Module Malformed.

Import Routing VRPSolver.

Definition distances : list (list Q) := [ [7; 1] ]%Q.
Definition durations : list (list Q) := [ [3] ]%Q.
Definition windows : list (Z * Z) := [ (0, 100) ]%Z.
Definition services : list Z := [ 0; 99 ]%Z.

Definition data : Data :=
  create_data_model distances durations windows services 1%Q 100%Z.

Definition plan : Assignment :=
  assignment_of [1]%nat [0; 3]%Z [0; 7]%Z.

End Malformed.

(** ** A client that closes before it can be reached

    One client twenty minutes away whose window ends at minute 5. *)

Module Closed.

Import Routing VRPSolver.
Local Open Scope nat_scope.

Definition distances : list (list Q) := [ [0; 1000]; [1000; 0] ]%Q.
Definition durations : list (list Q) := [ [0; 20]; [20; 0] ]%Q.
Definition windows : list (Z * Z) := [ (0, 100); (0, 5) ]%Z.
Definition services : list Z := [ 0; 0 ]%Z.

Definition data : Data :=
  create_data_model distances durations windows services 100%Q 100%Z.

Definition plan : Assignment :=
  assignment_of [1; 2]%nat [0; 20; 40]%Z [0; 1000; 2000]%Z.

End Closed.

(** ** Totals over the tables of a data model *)

Module Totals.

Definition sum_Z (l : list Z) : Z := fold_right Z.add 0%Z l.

(** The service durations of all locations together. *)
Definition total_service (data : Data) : Z := sum_Z (service_times data).

Definition nonnegative_table (m : list (list Z)) : bool :=
  forallb (forallb (Z.leb 0)) m.

End Totals.

(** ** Instances that cannot be served *)

Module Hopeless.

Import Recompute.

(** Every arc into location [k] from another location takes longer than
    [latest]. *)
Definition always_late (data : Data) (k : nat) (latest : Z) : bool :=
  forallb (fun j =>
             (j =? k)%nat ||
             match arc_time data j k with
             | Some t => (latest <? t)%Z
             | None => true
             end)
          (seq 0 (List.length (distance_matrix data))).

End Hopeless.

(** ** Two meetings of five hours in a day of eight *)

Module Overbooked.

Import Routing VRPSolver.

Definition distances : list (list Q) :=
  [ [0; 1000; 2000]; [1000; 0; 1500]; [2000; 1500; 0] ]%Q.
Definition durations : list (list Q) :=
  [ [0; 10; 20]; [10; 0; 15]; [20; 15; 0] ]%Q.
Definition windows : list (Z * Z) := [ (0, 480); (0, 480); (0, 480) ]%Z.
Definition services : list Z := [ 0; 300; 300 ]%Z.

Definition data : Data :=
  create_data_model distances durations windows services 100%Q 480%Z.

Definition plan : Assignment :=
  assignment_of [1; 2; 3]%nat [0; 10; 325; 645]%Z [0; 1000; 2500; 4500]%Z.

End Overbooked.

(** ** A depot without clients *)

Module Alone.

Import Routing VRPSolver.

Definition distances : list (list Q) := [ [15 # 2] ]%Q.
Definition durations : list (list Q) := [ [0] ]%Q.
Definition windows : list (Z * Z) := [ (0, 480) ]%Z.
Definition services : list Z := [ 0 ]%Z.

Definition data : Data :=
  create_data_model distances durations windows services 100%Q 480%Z.

Definition plan : Assignment := assignment_of [1]%nat [0; 0]%Z [0; 7]%Z.

End Alone.

(** ** The distance of the geometric fallback between two points *)

Module Geometry.

Import DistanceMatrixCalculator.
Local Open Scope R_scope.

(** The value the loops of the fallback compute for an origin and a
    destination given as (latitude, longitude). *)
Definition flat_distance (origin destination : R * R) : R :=
  let '(lat1, lon1) := origin in
  let '(lat2, lon2) := destination in
  let dlat := (lat2 - lat1) * 111 in
  let dlon := (lon2 - lon1) * 111 * cos (radians lat1) in
  sqrt (dlat ^ 2 + dlon ^ 2).

End Geometry.

(** ** Clock times

    [datetime.strptime(s, '%H:%M')], [strftime('%H:%M')] and the arithmetic
    on the results, as [Scripts/main.py], [Scripts/src/scheduler.py] and
    [Scripts/src/visualizer.py] use them.  Strings are ASCII.  A datetime on
    1 January 1900, the date [strptime] gives when the format has none, and
    every datetime reached from it, is the number of minutes since the
    midnight that begins that day. *)

Module Clock.

Local Open Scope nat_scope.

(** A character between two codes; 48 to 57 are the digits. *)
Definition in_class (lo hi : nat) (c : ascii) : bool :=
  (lo <=? nat_of_ascii c) && (nat_of_ascii c <=? hi).

Definition digit (c : ascii) : nat := nat_of_ascii c - 48.

(** The ways the group [(?P<H>2[0-3]|[0-1]\d|\d)] matches at the start of
    [s], in the order the alternatives are tried: the hour read and the
    rest of the string. *)
Definition match_H (s : string) : list (nat * string) :=
  (match s with
   | String c1 (String c2 rest) =>
       if in_class 50 50 c1 && in_class 48 51 c2
       then [(10 * digit c1 + digit c2, rest)] else []
   | _ => []
   end)
  ++ (match s with
      | String c1 (String c2 rest) =>
          if in_class 48 49 c1 && in_class 48 57 c2
          then [(10 * digit c1 + digit c2, rest)] else []
      | _ => []
      end)
  ++ (match s with
      | String c1 rest => if in_class 48 57 c1 then [(digit c1, rest)] else []
      | EmptyString => []
      end).

(** The same for the group [(?P<M>[0-5]\d|\d)]. *)
Definition match_M (s : string) : list (nat * string) :=
  (match s with
   | String c1 (String c2 rest) =>
       if in_class 48 53 c1 && in_class 48 57 c2
       then [(10 * digit c1 + digit c2, rest)] else []
   | _ => []
   end)
  ++ (match s with
      | String c1 rest => if in_class 48 57 c1 then [(digit c1, rest)] else []
      | EmptyString => []
      end).

(** The first of the ways that the rest of the pattern accepts. *)
Fixpoint first_match {A B : Type} (continue : A -> option B) (ways : list A)
  : option B :=
  match ways with
  | [] => None
  | way :: others =>
      match continue way with
      | Some found => Some found
      | None => first_match continue others
      end
  end.

(** [format_regex.match(data_string)] for the format '%H:%M': the hour,
    the minute and what is left of the string. *)
Definition match_HM (s : string) : option (nat * nat * string) :=
  first_match
    (fun hour_rest : nat * string =>
       match snd hour_rest with
       | String c rest =>
           if in_class 58 58 c
           then first_match
                  (fun minute_rest : nat * string =>
                     Some (fst hour_rest, fst minute_rest, snd minute_rest))
                  (match_M rest)
           else None
       | EmptyString => None
       end)
    (match_H s).

(** [datetime.strptime(s, '%H:%M')], as hour and minute; [None] stands for
    the ValueError of a string that does not match or that goes on after
    the match. *)
Definition strptime_HM (s : string) : option (nat * nat) :=
  match match_HM s with
  | Some (h, m, EmptyString) => Some (h, m)
  | _ => None
  end.

(** The datetime of an hour and a minute. *)
Definition datetime_of (hm : nat * nat) : Z :=
  (60 * Z.of_nat (fst hm) + Z.of_nat (snd hm))%Z.

(** The first and the last minute a datetime can hold: the years 1 to
    9999, counted from 1 January 1900. *)
Definition min_datetime : Z := (- (693595 * 1440))%Z.
Definition max_datetime : Z := (2958464 * 1440 - 1)%Z.

(** [t + timedelta(minutes=k)]; [None] stands for OverflowError. *)
Definition add_minutes (t k : Z) : option Z :=
  if ((min_datetime <=? t + k) && (t + k <=? max_datetime))%Z
  then Some (t + k)%Z else None.

Definition two_digits (n : nat) : string :=
  String (ascii_of_nat (48 + n / 10))
    (String (ascii_of_nat (48 + n mod 10)) EmptyString).

(** [t.strftime('%H:%M')]. *)
Definition strftime_HM (t : Z) : string :=
  let minute_of_day := Z.to_nat (t mod 1440) in
  (two_digits (minute_of_day / 60) ++ ":" ++ two_digits (minute_of_day mod 60))%string.

(** [convert_time_to_minutes] of [Scripts/main.py]: the difference of the
    two datetimes in seconds, divided by 60, through [int]. *)
Definition convert_time_to_minutes (time_str base_time_str : string)
  : option Z :=
  match strptime_HM base_time_str, strptime_HM time_str with
  | Some base, Some target =>
      let total_seconds := (60 * (datetime_of target - datetime_of base))%Z in
      let diff := (inject_Z total_seconds / 60)%Q in
      Some (Py.int diff)
  | _, _ => None
  end.

End Clock.

(** ** The main script

    [Scripts/main.py], from the client table and the configuration to the
    call of [solve].  The client table and the configuration are taken as
    loaded, the two matrices as the matrix provider returned them. *)

Module Main.

Import Routing VRPSolver.

(** One row of [data/clients.csv]. *)
Record Client : Type := mkClient {
  client_id : string;
  client_name : string;
  latitude : Q;
  longitude : Q;
  time_window_start : string;
  time_window_end : string;
  service_duration : Z;
  priority : string
}.

(** The entries of [data/config.json] that the scripts read. *)
Record Config : Type := mkConfig {
  rep_name : string;
  start_name : string;
  start_latitude : Q;
  start_longitude : Q;
  working_start : string;
  working_end : string;
  max_distance_km : Q;
  max_travel_hours : Q;
  osrm_server : string;
  time_limit_seconds : Z
}.

(** [time_windows[0] = window]. *)
Definition setitem0 {A : Type} (l : list A) (x : A) : list A :=
  match l with
  | _ :: rest => x :: rest
  | [] => []
  end.

(** The loop of step 4 over the client table, from the placeholder window
    and the service time of the depot.  [None] stands for the ValueError of
    a time that cannot be read. *)
Definition windows_loop (base_time : string) (clients_df : list Client)
  : option (list (Z * Z) * list Z) :=
  fold_left
    (fun state client =>
       match state with
       | None => None
       | Some (time_windows, service_times) =>
           match Clock.convert_time_to_minutes (time_window_start client) base_time with
           | None => None
           | Some tw_start =>
               match Clock.convert_time_to_minutes (time_window_end client) base_time with
               | None => None
               | Some tw_end =>
                   Some (time_windows ++ [(tw_start, tw_end)],
                         service_times ++ [service_duration client])
               end
           end
       end)
    clients_df (Some ([(0, 0)%Z], [0%Z])).

(** Steps 4 and 5 up to the data model handed to the solver. *)
Definition prepare (config : Config) (clients_df : list Client)
    (distance_matrix time_matrix : list (list Q)) : option Data :=
  let base_time := working_start config in
  match windows_loop base_time clients_df with
  | None => None
  | Some (time_windows, service_times) =>
      let work_start := 0%Z in
      match Clock.convert_time_to_minutes (working_end config) base_time with
      | None => None
      | Some work_end =>
          let time_windows := setitem0 time_windows (work_start, work_end) in
          let max_distance := max_distance_km config in
          let max_time := (max_travel_hours config * 60)%Q in
          Some (create_data_model
                  (map (map (fun x => x * 1000)%Q) distance_matrix)
                  time_matrix time_windows service_times
                  max_distance work_end)
      end
  end.

(** Steps 4 and 5: the preparation, then [solve] with the time limit of the
    configuration. *)
Definition main_solve (search : Model -> SearchParameters -> SearchResult)
    (fuel : nat) (config : Config) (clients_df : list Client)
    (distance_matrix time_matrix : list (list Q)) : Outcome :=
  match prepare config clients_df distance_matrix time_matrix with
  | None => Raises
  | Some data => solve search fuel data (time_limit_seconds config)
  end.

End Main.

(** ** The schedule

    [Scripts/src/scheduler.py], method [generate_schedule]: one row per stop
    of the route.  The data frame is the list of its rows.  The address of a
    client, latitude and longitude written with four decimals, is left to a
    function given from outside. *)

Module ScheduleGenerator.

Import VRPSolver.
Local Open Scope string_scope.

Record Row : Type := mkRow {
  sequence : nat;
  location : string;
  client_id : string;
  address : string;
  arrival_time : string;
  service_start : string;
  service_duration : Z;
  service_end : string;
  activity : string;
  cumulative_distance_km : Q;
  distance_from_previous_km : Q;
  travel_time_from_previous_min : Z
}.

Section Schedule.

Variable format_address : Main.Client -> string.
Variable solution : Solution.
Variable clients_df : list Main.Client.
Variable config : Main.Config.
Variable distance_matrix : list (list Q).
Variable time_matrix : list (list Q).

(** The distance and the travel time from the stop before stop [i]; [None]
    stands for the IndexError of a location outside the matrices. *)
Definition from_previous (i location_idx : nat) : option (Q * Q) :=
  match nth_error (route solution) (i - 1) with
  | None => None
  | Some previous =>
      let prev_location_idx := location_index previous in
      match Py.getitem2 distance_matrix prev_location_idx location_idx,
            Py.getitem2 time_matrix prev_location_idx location_idx with
      | Some distance, Some travel_time => Some (distance, travel_time)
      | _, _ => None
      end
  end.

(** The body of the loop over [enumerate(route)]. *)
Definition schedule_row (start_time : Z) (i : nat) (stop : Stop) : option Row :=
  let location_idx := location_index stop in
  let arrival_minutes := VRPSolver.arrival_time stop in
  match Clock.add_minutes start_time (Py.int (inject_Z arrival_minutes)) with
  | None => None
  | Some arrival =>
      if (location_idx =? 0)%nat then
        if (i =? 0)%nat then
          Some {| sequence := i + 1;
                  location := Main.start_name config;
                  client_id := "DEPOT";
                  address := "Office";
                  arrival_time := Clock.strftime_HM arrival;
                  service_start := Clock.strftime_HM arrival;
                  service_duration := 0;
                  service_end := Clock.strftime_HM arrival;
                  activity := "Depart Office";
                  cumulative_distance_km := 0;
                  distance_from_previous_km := 0;
                  travel_time_from_previous_min := 0 |}
        else
          match from_previous i location_idx with
          | None => None
          | Some (distance, travel_time) =>
              Some {| sequence := i + 1;
                      location := Main.start_name config;
                      client_id := "DEPOT";
                      address := "Office";
                      arrival_time := Clock.strftime_HM arrival;
                      service_start := "-";
                      service_duration := 0;
                      service_end := "-";
                      activity := "Return to Office";
                      cumulative_distance_km :=
                        inject_Z (cumulative_distance stop) / 1000;
                      distance_from_previous_km := distance;
                      travel_time_from_previous_min := Py.int travel_time |}
          end
      else
        match nth_error clients_df (location_idx - 1) with
        | None => None
        | Some client =>
            match (if (0 <? i)%nat then from_previous i location_idx
                   else Some (0%Q, 0%Q)) with
            | None => None
            | Some (distance, travel_time) =>
                let duration :=
                  Py.int (inject_Z (Main.service_duration client)) in
                let start := arrival in
                match Clock.add_minutes arrival duration with
                | None => None
                | Some finish =>
                    Some {| sequence := i + 1;
                            location := Main.client_name client;
                            client_id := Main.client_id client;
                            address := format_address client;
                            arrival_time := Clock.strftime_HM arrival;
                            service_start := Clock.strftime_HM start;
                            service_duration := duration;
                            service_end := Clock.strftime_HM finish;
                            activity :=
                              "Meeting (" ++ Main.priority client ++ " Priority)";
                            cumulative_distance_km :=
                              inject_Z (cumulative_distance stop) / 1000;
                            distance_from_previous_km := distance;
                            travel_time_from_previous_min := Py.int travel_time |}
                end
            end
        end
  end.

(** The loop, from stop [i] on. *)
Fixpoint schedule_rows (start_time : Z) (i : nat) (stops : list Stop)
  : option (list Row) :=
  match stops with
  | [] => Some []
  | stop :: rest =>
      match schedule_row start_time i stop with
      | None => None
      | Some row => option_map (cons row) (schedule_rows start_time (S i) rest)
      end
  end.

(** [ScheduleGenerator.generate_schedule]. *)
Definition generate_schedule : option (list Row) :=
  match Clock.strptime_HM (Main.working_start config) with
  | None => None
  | Some hm => schedule_rows (Clock.datetime_of hm) 0 (route solution)
  end.

End Schedule.

End ScheduleGenerator.

(** ** The Gantt chart

    [Scripts/src/visualizer.py], method [create_gantt_chart].  A printed
    line is given by its parts: the arrival time, the number of dashes
    before the dot, the number of blocks after it, and the text that ends
    the line. *)

Module RouteVisualizer.

Import ScheduleGenerator.
Local Open Scope string_scope.

Record Line : Type := mkLine {
  shown_time : string;
  dashes : nat;
  blocks : nat;
  caption : string
}.

(** [symbol * n]: a count that is negative gives the empty string. *)
Definition repeated (n : Z) : nat := Z.to_nat n.

(** The body of the loop over the rows; [None] stands for the ValueError of
    a time that cannot be read, [Some None] for a row that is passed
    over. *)
Definition gantt_line (working_start : Z) (row : Row) : option (option Line) :=
  if negb (String.eqb (client_id row) "DEPOT") || (sequence row =? 1)%nat then
    match Clock.strptime_HM (arrival_time row) with
    | None => None
    | Some hm =>
        let arrival := Clock.datetime_of hm in
        let minutes_from_start :=
          Py.int (inject_Z (60 * (arrival - working_start)) / 60) in
        let bar_length := (minutes_from_start / 10)%Z in
        if String.eqb (client_id row) "DEPOT" then
          Some (Some {| shown_time := arrival_time row;
                        dashes := repeated bar_length;
                        blocks := 0;
                        caption := "START" |})
        else
          Some (Some {| shown_time := arrival_time row;
                        dashes := repeated bar_length;
                        blocks := repeated (service_duration row / 10);
                        caption := String.substring 0 30 (location row) |})
    end
  else Some None.

Fixpoint gantt_lines (working_start : Z) (rows : list Row)
  : option (list Line) :=
  match rows with
  | [] => Some []
  | row :: rest =>
      match gantt_line working_start row with
      | None => None
      | Some line =>
          match gantt_lines working_start rest with
          | None => None
          | Some lines =>
              Some (match line with
                    | Some l => l :: lines
                    | None => lines
                    end)
          end
      end
  end.

(** [RouteVisualizer.create_gantt_chart]: the lines printed between the
    header and the footer. *)
Definition create_gantt_chart (config : Main.Config) (schedule_df : list Row)
  : option (list Line) :=
  match Clock.strptime_HM (Main.working_start config) with
  | None => None
  | Some hm => gantt_lines (Clock.datetime_of hm) schedule_df
  end.

End RouteVisualizer.

(** ** A morning with two clients, as the main script sees it *)

Module Morning.

Import Routing VRPSolver Main.
Local Open Scope string_scope.

Definition config : Config :=
  {| rep_name := "Asha";
     start_name := "Head Office";
     start_latitude := 19;
     start_longitude := 73;
     working_start := "09:00";
     working_end := "17:00";
     max_distance_km := 100;
     max_travel_hours := 6;
     osrm_server := "http://router.project-osrm.org";
     time_limit_seconds := 30 |}.

Definition clients_df : list Client :=
  [ {| client_id := "C001"; client_name := "Alpha Traders";
       latitude := 19; longitude := 73;
       time_window_start := "09:30"; time_window_end := "12:00";
       service_duration := 30; priority := "High" |};
    {| client_id := "C002"; client_name := "Beta Stores";
       latitude := 19; longitude := 73;
       time_window_start := "10:00"; time_window_end := "16:00";
       service_duration := 45; priority := "Low" |} ].

(** Kilometres and minutes. *)
Definition distance_km : list (list Q) :=
  [ [0; 5; 8]; [5; 0; 4]; [8; 4; 0] ]%Q.
Definition duration_min : list (list Q) :=
  [ [0; 20; 30]; [20; 0; 15]; [30; 15; 0] ]%Q.

(** Depot at 9:00, Alpha at 9:30 after waiting, Beta at 10:15, back at
    11:30. *)
Definition plan : Assignment :=
  assignment_of [1; 2; 3]%nat [0; 30; 75; 150]%Z [0; 5000; 9000; 17000]%Z.

(** What the main script hands to the solver for this morning. *)
Definition data : Data :=
  create_data_model
    [ [0; 5000; 8000]; [5000; 0; 4000]; [8000; 4000; 0] ]%Q duration_min
    [ (0, 480); (30, 180); (60, 420) ]%Z [ 0; 30; 45 ]%Z 100%Q 480%Z.

(** The solution read from the plan. *)
Definition solution : Solution :=
  {| route := [ mkStop 0 0 0; mkStop 1 30 5000; mkStop 2 75 9000;
                mkStop 0 150 17000 ];
     total_distance_km := (17000 / 1000)%Q;
     total_time_minutes := 150;
     num_locations := 3 |}.

Definition address (client : Client) : string := "(19.0000, 73.0000)".

End Morning.

(** ** The shape of a route

    What the path constraints say about the indices met when the successors
    are followed from the start. *)

Module PathFacts.

Local Open Scope nat_scope.

Section Chain.

Variable N : nat.
Variable s : nat.
Variable next : nat -> nat.

Lemma In_skipn_incl : forall (k : nat) (l : list nat) (x : nat),
  In x (skipn k l) -> In x l.
Proof.
  induction k as [| k IH]; intros l x H; [assumption |].
  destruct l as [| y l]; [destruct H |]. right. now apply IH.
Qed.

Local Abbreviation chain := (Path.chain N next).

Lemma chain_det : forall i l1, chain i l1 -> forall l2, chain i l2 -> l1 = l2.
Proof.
  induction 1 as [i Hi | i l Hi Hc IH]; intros l2 H2.
  - inversion H2; subst; [reflexivity | lia].
  - inversion H2; subst; [lia |].
    f_equal. now apply IH.
Qed.

Lemma chain_bound : forall i l, chain i l -> Forall (fun x => x < N) l.
Proof.
  induction 1; constructor; assumption.
Qed.

Lemma chain_suffix : forall p i x q,
  chain i (p ++ x :: q) -> chain x (x :: q).
Proof.
  induction p as [| y p IH]; intros i x q H; simpl in H.
  - inversion H; subst. assumption.
  - inversion H; subst. eapply IH; eassumption.
Qed.

Lemma chain_NoDup : forall i l, chain i l -> NoDup l.
Proof.
  induction 1 as [i Hi | i l Hi Hc IH]; constructor; [| assumption].
  intro Hin. apply in_split in Hin. destruct Hin as (p & q & ->).
  pose proof (chain_suffix _ _ _ _ Hc) as Hx.
  pose proof (chain_det _ _ (Path.chain_step N next _ _ Hi Hc) _ Hx) as E.
  apply (f_equal (@List.length nat)) in E.
  simpl in E. rewrite length_app in E. simpl in E. lia.
Qed.

Hypothesis Hdom : forall i, i < N -> next i <= N /\ next i <> s.
Hypothesis Hinj : forall i j, i < N -> j < N -> next i = next j -> i = j.

(** Two walks of the same length are the same walk: the end of the route
    has one predecessor, which has one predecessor, and so on. *)
Lemma chain_same_length : forall i l, chain i l -> forall j l',
  chain j l' -> i <= N -> j <= N -> List.length l = List.length l' ->
  i = j /\ l = l'.
Proof.
  induction 1 as [i Hi | i l Hi Hc IH]; intros j l' Hj Hile Hjle Hlen.
  - destruct l'; [| discriminate].
    inversion Hj; subst. split; [lia | reflexivity].
  - destruct l' as [| y l']; [discriminate |].
    inversion Hj; subst.
    destruct (IH _ _ H3) as [E1 E2].
    + apply Hdom; assumption.
    + apply Hdom; assumption.
    + simpl in Hlen; lia.
    + apply Hinj in E1; try assumption. subst. split; reflexivity.
Qed.

(** After [k] steps of a walk one stands on an index of the model, which
    is a successor when [k] is not zero. *)
Lemma chain_skipn : forall i l, chain i l -> i <= N -> forall k,
  k <= List.length l ->
  exists x, x <= N /\ chain x (skipn k l) /\
            (0 < k -> exists y, y < N /\ x = next y).
Proof.
  induction 1 as [i Hi | i l Hi Hc IH]; intros Hile k Hk.
  - simpl in Hk. assert (k = 0) by lia. subst k.
    exists i. repeat split; [assumption | now constructor | lia].
  - destruct k as [| k].
    + exists i. repeat split; [assumption | now constructor | lia].
    + simpl in Hk. destruct (IH (proj1 (Hdom _ Hi)) k) as (x & Hx & Hcx & Hy).
      * lia.
      * exists x. repeat split; [assumption | exact Hcx |].
        intros _. destruct k as [| k].
        -- simpl in Hcx.
           destruct (chain_same_length _ _ Hc _ _ Hcx
                       (proj1 (Hdom _ Hi)) Hx eq_refl) as [E _].
           exists i. split; [assumption | now symmetry].
        -- apply Hy. lia.
Qed.

Hypothesis Hs : s < N.

(** Every index of the model lies on the walk from the start. *)
Lemma chain_covers : forall ls, chain s ls ->
  forall j lj, j < N -> chain j lj -> In j ls.
Proof.
  intros ls Hls j lj Hj Hlj.
  destruct (le_lt_dec (List.length lj) (List.length ls)) as [Hle | Hlt].
  - destruct (chain_skipn _ _ Hls (Nat.lt_le_incl _ _ Hs)
                (List.length ls - List.length lj)) as (x & Hx & Hcx & _);
      [lia |].
    destruct (chain_same_length _ _ Hlj _ _ Hcx) as [E1 E2];
      [lia | assumption | rewrite length_skipn; lia |].
    destruct Hlj as [j Hge | j l Hlt Hc]; [lia |].
    eapply In_skipn_incl. rewrite <- E2, E1. now left.
  - destruct (chain_skipn _ _ Hlj (Nat.lt_le_incl _ _ Hj)
                (List.length lj - List.length ls)) as (x & Hx & Hcx & Hy);
      [lia |].
    destruct Hy as (y & Hy & Exy); [lia |].
    destruct (chain_same_length _ _ Hls _ _ Hcx) as [E1 _];
      [lia | assumption | rewrite length_skipn; lia |].
    exfalso. apply (proj2 (Hdom _ Hy)). congruence.
Qed.

End Chain.

End PathFacts.

(** ** From the constraints to facts about an assignment *)

Module Facts.

Import Routing VRPSolver.
Local Open Scope nat_scope.

Section Nexts.

Variable mg : IndexManager.
Variable next : nat -> nat.
Hypothesis Hok : nexts_ok mg next = true.

Lemma nexts_dom : forall i, i < Size mg ->
  next i <= Size mg /\ next i <> Start mg.
Proof.
  intros i Hi. unfold nexts_ok in Hok.
  apply andb_true_iff in Hok. destruct Hok as [H12 _].
  apply andb_true_iff in H12. destruct H12 as [H1 _].
  rewrite forallb_forall in H1.
  specialize (H1 i). rewrite in_seq in H1.
  apply andb_true_iff in H1; [| lia]. destruct H1 as [Ha Hb].
  apply Nat.leb_le in Ha. apply negb_true_iff, Nat.eqb_neq in Hb.
  split; assumption.
Qed.

Lemma nexts_inj : forall i j, i < Size mg -> j < Size mg ->
  next i = next j -> i = j.
Proof.
  intros i j Hi Hj E. unfold nexts_ok in Hok.
  apply andb_true_iff in Hok. destruct Hok as [H12 _].
  apply andb_true_iff in H12. destruct H12 as [_ H2].
  rewrite forallb_forall in H2.
  specialize (H2 i). rewrite in_seq in H2.
  assert (Hrow := H2 ltac:(lia)). rewrite forallb_forall in Hrow.
  specialize (Hrow j). rewrite in_seq in Hrow.
  assert (Hij := Hrow ltac:(lia)).
  rewrite E, Nat.eqb_refl in Hij. simpl in Hij.
  now apply Nat.eqb_eq.
Qed.

Lemma reaches_end_chain : forall fuel i,
  reaches_end mg next fuel i = true ->
  exists l, Path.chain (Size mg) next i l /\ List.length l <= fuel.
Proof.
  induction fuel as [| fuel IH]; intros i H; simpl in H.
  - rewrite orb_false_r in H. apply Nat.leb_le in H.
    exists []. split; [now constructor | simpl; lia].
  - destruct (IsEnd mg i) eqn:E.
    + apply Nat.leb_le in E. exists []. split; [now constructor | simpl; lia].
    + apply Nat.leb_gt in E. simpl in H.
      destruct (IH _ H) as (l & Hl & Hlen).
      exists (i :: l). split; [now constructor | simpl; lia].
Qed.

Lemma nexts_chain : forall i, i < Size mg ->
  exists l, Path.chain (Size mg) next i l.
Proof.
  intros i Hi. unfold nexts_ok in Hok.
  apply andb_true_iff in Hok. destruct Hok as [_ H3].
  rewrite forallb_forall in H3.
  specialize (H3 i). rewrite in_seq in H3.
  destruct (reaches_end_chain _ _ (H3 ltac:(lia))) as (l & Hl & _).
  now exists l.
Qed.

Hypothesis Hstart : Start mg < Size mg.

(** The walk from the start meets every index of the model once. *)
Lemma start_chain :
  exists ls,
    Path.chain (Size mg) next (Start mg) (Start mg :: ls) /\
    List.length (Start mg :: ls) = Size mg /\
    NoDup (Start mg :: ls) /\
    (forall j, j < Size mg <-> In j (Start mg :: ls)).
Proof.
  destruct (nexts_chain _ Hstart) as (l0 & Hfull).
  inversion Hfull as [i Hge | i ls Hlt Hc]; subst; [lia |].
  exists ls.
  assert (Hnd : NoDup (Start mg :: ls))
    by exact (PathFacts.chain_NoDup _ _ _ _ Hfull).
  assert (Hcov : forall j, j < Size mg -> In j (Start mg :: ls)).
  { intros j Hj. destruct (nexts_chain _ Hj) as (lj & Hlj).
    eapply PathFacts.chain_covers with (s := Start mg) (lj := lj);
      [apply nexts_dom | apply nexts_inj | assumption | exact Hfull
      | assumption | exact Hlj ]. }
  assert (Hbd : forall j, In j (Start mg :: ls) -> j < Size mg).
  { apply Forall_forall. exact (PathFacts.chain_bound _ _ _ _ Hfull). }
  split; [exact Hfull |]. split; [| split; [exact Hnd |]].
  - assert (H1 : incl (Start mg :: ls) (seq 0 (Size mg))).
    { intros j Hj. apply in_seq. apply Hbd in Hj. lia. }
    assert (H2 : incl (seq 0 (Size mg)) (Start mg :: ls)).
    { intros j Hj. apply in_seq in Hj. apply Hcov. lia. }
    apply NoDup_incl_length in H1; [| assumption].
    apply NoDup_incl_length in H2; [| apply seq_NoDup].
    rewrite length_seq in H1, H2. lia.
  - intros j. split; [apply Hcov | apply Hbd].
Qed.

End Nexts.

Section Dimension.

Variable mg : IndexManager.
Variable next : nat -> nat.
Variable dim : Dimension.
Variable cumul : nat -> Z.
Hypothesis Hok : dimension_ok mg next dim cumul = true.

Lemma in_range_spec : forall lo hi x,
  in_range lo hi x = true <-> (lo <= x <= hi)%Z.
Proof.
  intros. unfold in_range. rewrite andb_true_iff, !Z.leb_le. tauto.
Qed.

Lemma cumul_capacity : forall i, i <= Size mg ->
  (0 <= cumul i <= capacity dim)%Z.
Proof.
  intros i Hi. unfold dimension_ok in Hok.
  rewrite !andb_true_iff in Hok. destruct Hok as [[[H1 _] _] _].
  rewrite forallb_forall in H1. apply in_range_spec, H1, in_seq. lia.
Qed.

Lemma cumul_arc : forall i, i < Size mg ->
  exists t, transit dim i (next i) = Some t /\
            (0 <= cumul (next i) - cumul i - t <= slack_max dim)%Z.
Proof.
  intros i Hi. unfold dimension_ok in Hok.
  rewrite !andb_true_iff in Hok. destruct Hok as [[[_ H2] _] _].
  rewrite forallb_forall in H2. specialize (H2 i). rewrite in_seq in H2.
  specialize (H2 ltac:(lia)).
  destruct (transit dim i (next i)) as [t |]; [| discriminate].
  exists t. split; [reflexivity | now apply in_range_spec].
Qed.

Lemma cumul_start : fix_start_cumul_to_zero dim = true ->
  cumul (Start mg) = 0%Z.
Proof.
  intros E. unfold dimension_ok in Hok.
  rewrite !andb_true_iff in Hok. destruct Hok as [[[_ _] H3] _].
  rewrite E in H3. now apply Z.eqb_eq.
Qed.

Lemma cumul_range : forall index lo hi, In (index, (lo, hi)) (ranges dim) ->
  (lo <= cumul index <= hi)%Z.
Proof.
  intros index lo hi Hin. unfold dimension_ok in Hok.
  rewrite !andb_true_iff in Hok. destruct Hok as [_ H4].
  rewrite forallb_forall in H4. apply H4 in Hin. simpl in Hin.
  now apply in_range_spec.
Qed.

End Dimension.

End Facts.

(** ** What the extraction loop computes *)

Module Extractor.

Import Routing VRPSolver.
Local Open Scope nat_scope.

Section Loop.

Variable m : Model.
Variable a : Assignment.

Let mg := manager m.
Let next := Value_NextVar a.

Hypothesis Hok : nexts_ok mg next = true.

Lemma extract_loop_chain : forall i l,
  Path.chain (Size mg) next i l -> i <= Size mg ->
  forall fuel acc, List.length l <= fuel ->
  extract_loop m a fuel i acc = Some (acc ++ map (stop_at m a) l, Size mg).
Proof.
  induction 1 as [i Hi | i l Hi Hc IH]; intros Hile fuel acc Hfuel.
  - assert (i = Size mg) by lia. subst i.
    destruct fuel; simpl; unfold IsEnd; fold mg;
      rewrite Nat.leb_refl, app_nil_r; reflexivity.
  - destruct fuel as [| fuel]; [simpl in Hfuel; lia |].
    simpl. unfold IsEnd. fold mg.
    destruct (Nat.leb_spec (Size mg) i) as [Hge | _]; [lia |].
    fold next. rewrite IH.
    + rewrite <- app_assoc. reflexivity.
    + apply (Facts.nexts_dom mg next Hok). assumption.
    + simpl in Hfuel. lia.
Qed.

Hypothesis Hstart : Start mg < Size mg.

(** With fuel for one iteration per node the loop ends, and the route is
    the walk from the start followed by the end of the route. *)
Lemma extract_solution_ok : forall fuel, Size mg <= fuel ->
  exists ls,
    Path.chain (Size mg) next (Start mg) (Start mg :: ls) /\
    List.length (Start mg :: ls) = Size mg /\
    NoDup (Start mg :: ls) /\
    (forall j, j < Size mg <-> In j (Start mg :: ls)) /\
    _extract_solution m a fuel =
      Some {| route := map (stop_at m a) ((Start mg :: ls) ++ [Size mg]);
              total_distance_km :=
                (inject_Z (Min_CumulVar a "Distance" (Size mg)) / 1000)%Q;
              total_time_minutes := Min_CumulVar a "Time" (Size mg);
              num_locations := Size mg |}.
Proof.
  intros fuel Hfuel.
  destruct (Facts.start_chain mg next Hok Hstart) as (ls & Hc & Hlen & Hnd & Hin).
  exists ls. repeat (split; [assumption |]).
  unfold _extract_solution. fold mg.
  rewrite (extract_loop_chain _ _ Hc) by lia.
  cbv zeta. rewrite app_nil_l.
  f_equal. f_equal.
  - rewrite map_app. reflexivity.
  - rewrite length_app, length_map, Hlen. simpl. lia.
Qed.

End Loop.

(** The model of a data model, taken apart. *)
Lemma routing_model_inv : forall data m,
  routing_model data = Some m ->
  exists clients dep,
    let mg := {| num_nodes := List.length (distance_matrix data);
                 start_node := depot data |} in
    depot data < List.length (distance_matrix data) /\
    client_ranges data mg (Py.enumerate (time_windows data)) = Some clients /\
    depot_range data mg = Some dep /\
    m = {| manager := mg;
           arc_cost := distance_callback data mg;
           dimensions :=
             [ ("Distance"%string,
                {| transit := distance_callback data mg;
                   slack_max := 0;
                   capacity := vehicle_capacity data;
                   fix_start_cumul_to_zero := true;
                   ranges := [] |});
               ("Time"%string,
                {| transit := time_callback data mg;
                   slack_max := 60;
                   capacity := vehicle_time_capacity data;
                   fix_start_cumul_to_zero := false;
                   ranges := clients ++ [dep] |}) ] |}.
Proof.
  intros data m H. unfold routing_model, RoutingIndexManager in H.
  destruct (num_vehicles data =? 1) eqn:Ev; [| discriminate].
  destruct (depot data <? List.length (distance_matrix data)) eqn:Ed;
    [| discriminate].
  simpl in H.
  destruct (client_ranges _ _ _) as [clients |] eqn:Ec; [| discriminate].
  destruct (depot_range _ _) as [dep |] eqn:Er; [| discriminate].
  exists clients, dep. cbv zeta.
  apply Nat.ltb_lt in Ed. inversion H. repeat split; assumption || reflexivity.
Qed.

End Extractor.

(** ** Successful solves *)

Module Solved.

Import Routing VRPSolver.
Local Open Scope nat_scope.

Lemma proposing_sound : forall a, sound (proposing a).
Proof.
  intros a m p. unfold proposing.
  destruct (satisfies m a) eqn:E; simpl; [split; [reflexivity | exact E] |].
  discriminate.
Qed.

Lemma giving_up_sound : sound giving_up.
Proof.
  intros m p. simpl. discriminate.
Qed.

(** The three constraint systems met by an assignment of the model. *)
Lemma satisfies_inv : forall data m a,
  routing_model data = Some m -> satisfies m a = true ->
  exists clients dep,
    manager m = manager_of data /\
    depot data < List.length (distance_matrix data) /\
    client_ranges data (manager_of data) (Py.enumerate (time_windows data))
      = Some clients /\
    depot_range data (manager_of data) = Some dep /\
    nexts_ok (manager_of data) (Value_NextVar a) = true /\
    dimension_ok (manager_of data) (Value_NextVar a)
      (distance_dimension data (manager_of data)) (Min_CumulVar a "Distance") = true /\
    dimension_ok (manager_of data) (Value_NextVar a)
      (time_dimension data (manager_of data) clients dep) (Min_CumulVar a "Time") = true.
Proof.
  intros data m a Hm Hsat.
  destruct (Extractor.routing_model_inv _ _ Hm)
    as (clients & dep & Hdep & Hc & Hr & ->).
  exists clients, dep.
  unfold satisfies in Hsat. simpl in Hsat.
  rewrite !andb_true_iff in Hsat. destruct Hsat as (Hn & Hd & Ht & _).
  simpl. repeat split; assumption.
Qed.

(** Every call of [solve] with fuel for one loop iteration per location
    raises, returns nothing, or returns what the extraction makes of an
    assignment of the model. *)
Lemma solve_cases : forall search fuel data time_limit,
  sound search -> List.length (distance_matrix data) <= fuel ->
  (routing_model data = None /\ solve search fuel data time_limit = Raises) \/
  (exists m, routing_model data = Some m /\
     solution (search m (search_parameters time_limit)) = None /\
     solve search fuel data time_limit = Returns None) \/
  (exists m a sol, routing_model data = Some m /\
     solution (search m (search_parameters time_limit)) = Some a /\
     satisfies m a = true /\
     _extract_solution m a fuel = Some sol /\
     solve search fuel data time_limit = Returns (Some sol)).
Proof.
  intros search fuel data time_limit Hsound Hfuel. unfold solve.
  destruct (routing_model data) as [m |] eqn:Hm; [| left; split; reflexivity].
  right. specialize (Hsound m (search_parameters time_limit)).
  destruct (solution (search m (search_parameters time_limit))) as [a |] eqn:Hs.
  - right. destruct Hsound as [_ Hsat].
    destruct (satisfies_inv _ _ _ Hm Hsat)
      as (clients & dep & Hmg & Hdep & _ & _ & Hok & _).
    rewrite <- Hmg in Hok.
    destruct (Extractor.extract_solution_ok m a Hok) with (fuel := fuel)
      as (ls & _ & _ & _ & _ & E).
    + rewrite Hmg. exact Hdep.
    + rewrite Hmg. exact Hfuel.
    + exists m, a. eexists. rewrite E. repeat split; try reflexivity; assumption.
  - left. exists m. repeat split; assumption || reflexivity.
Qed.

(** A returned solution, described: the assignment it was read from, the
    constraints that assignment meets, and the indices of its route. *)
Lemma returned : forall search fuel data time_limit sol,
  sound search -> List.length (distance_matrix data) <= fuel ->
  solve search fuel data time_limit = Returns (Some sol) ->
  exists m a ls clients dep,
    let N := List.length (distance_matrix data) in
    routing_model data = Some m /\
    manager m = manager_of data /\
    depot data < N /\
    client_ranges data (manager_of data) (Py.enumerate (time_windows data))
      = Some clients /\
    depot_range data (manager_of data) = Some dep /\
    nexts_ok (manager_of data) (Value_NextVar a) = true /\
    dimension_ok (manager_of data) (Value_NextVar a)
      (distance_dimension data (manager_of data)) (Min_CumulVar a "Distance") = true /\
    dimension_ok (manager_of data) (Value_NextVar a)
      (time_dimension data (manager_of data) clients dep) (Min_CumulVar a "Time") = true /\
    Path.chain N (Value_NextVar a) (depot data) (depot data :: ls) /\
    List.length (depot data :: ls) = N /\
    NoDup (depot data :: ls) /\
    (forall j, j < N <-> In j (depot data :: ls)) /\
    sol = {| route := map (stop_at m a) ((depot data :: ls) ++ [N]);
             total_distance_km :=
               (inject_Z (Min_CumulVar a "Distance" N) / 1000)%Q;
             total_time_minutes := Min_CumulVar a "Time" N;
             num_locations := N |}.
Proof.
  intros search fuel data time_limit sol Hsound Hfuel Hsolve.
  destruct (solve_cases search fuel data time_limit Hsound Hfuel)
    as [[_ E] | [(m & _ & _ & E) | (m & a & sol' & Hm & _ & Hsat & Hex & E)]];
    try congruence.
  assert (sol' = sol) by congruence. subst sol'.
  destruct (satisfies_inv _ _ _ Hm Hsat)
    as (clients & dep & Hmg & Hdep & Hc & Hr & Hok & Hd & Ht).
  assert (Hok' := Hok). rewrite <- Hmg in Hok'.
  destruct (Extractor.extract_solution_ok m a Hok') with (fuel := fuel)
    as (ls & Hch & Hlen & Hnd & Hin & Ex).
  - rewrite Hmg. exact Hdep.
  - rewrite Hmg. exact Hfuel.
  - rewrite Hmg in Hch, Hlen, Hnd, Hin, Ex.
    exists m, a, ls, clients, dep. cbv zeta.
    repeat (split; [assumption |]).
    rewrite Hex in Ex. inversion Ex. reflexivity.
Qed.

(** The locations of a route: an index below the number of nodes is its
    own node, the end of the route is the depot. *)
Lemma route_locations : forall m a data idx,
  manager m = manager_of data ->
  (forall j, In j idx -> j < List.length (distance_matrix data)) ->
  map location_index
      (map (stop_at m a) (idx ++ [List.length (distance_matrix data)]))
  = idx ++ [depot data].
Proof.
  intros m a data idx Hmg Hbd.
  rewrite map_map, map_app. simpl. unfold IndexToNode. rewrite Hmg. simpl.
  rewrite Nat.ltb_irrefl. f_equal.
  rewrite <- (map_id idx) at 2. apply map_ext_in.
  intros j Hj. apply Hbd in Hj.
  apply Nat.ltb_lt in Hj. now rewrite Hj.
Qed.

End Solved.

(** ** A dimension along the route *)

Module Along.

Import Routing VRPSolver Recompute.
Local Open Scope Z_scope.

Lemma int_inject_Z : forall z, Py.int (inject_Z z) = z.
Proof.
  intros z. unfold Py.int. simpl. apply Z.quot_1_r.
Qed.

Lemma time_callback_arc_time : forall data mg i j,
  time_callback data mg i j =
  arc_time data (IndexToNode mg i) (IndexToNode mg j).
Proof.
  intros. unfold time_callback, arc_time. cbv zeta.
  destruct (Py.getitem2 _ _ _); [| reflexivity].
  destruct (nth_error _ _); [| reflexivity].
  now rewrite int_inject_Z.
Qed.

Section Dim.

Variable mg : IndexManager.
Variable next : nat -> nat.
Variable dim : Dimension.
Variable cumul : nat -> Z.
Variable entry : nat -> nat -> option Z.

Let N := Size mg.
Let loc := IndexToNode mg.

Hypothesis Hentry : forall i j, transit dim i j = entry (loc i) (loc j).
Hypothesis Hnexts : nexts_ok mg next = true.
Hypothesis Hdim : dimension_ok mg next dim cumul = true.

Lemma chain_app_hd : forall i l, Path.chain N next i l -> (i <= N)%nat ->
  l ++ [N] = i :: tl (l ++ [N]).
Proof.
  intros i l H Hi. destruct H as [i Hge | i l Hlt Hc]; simpl.
  - f_equal. lia.
  - reflexivity.
Qed.

Lemma arc_step : forall i, (i < N)%nat ->
  exists t, entry (loc i) (loc (next i)) = Some t /\
            0 <= cumul (next i) - cumul i - t <= slack_max dim.
Proof.
  intros i Hi. destruct (Facts.cumul_arc _ _ _ _ Hdim i Hi) as (t & Ht & Hb).
  exists t. rewrite <- Hentry. split; assumption.
Qed.

(** From any index to the end of the route the cumulated value grows by
    the sum over the arcs plus the slack taken, at most [slack_max] per
    arc. *)
Lemma chain_arc_sum : forall i l, Path.chain N next i l -> (i <= N)%nat ->
  exists total,
    arc_sum entry (map loc (l ++ [N])) = Some total /\
    0 <= cumul N - cumul i - total <= slack_max dim * Z.of_nat (List.length l).
Proof.
  induction 1 as [i Hi | i l Hi Hc IH]; intros Hile.
  - assert (i = N) by lia. subst i. exists 0. simpl. split; [reflexivity | lia].
  - assert (Hn : (next i <= N)%nat) by (apply (Facts.nexts_dom mg next Hnexts); exact Hi).
    destruct (IH Hn) as (total & Hsum & Hb).
    destruct (arc_step i Hi) as (t & Ht & Hs).
    exists (t + total).
    rewrite length_cons, Nat2Z.inj_succ, Z.mul_succ_r.
    change ((i :: l) ++ [N]) with (i :: (l ++ [N])).
    rewrite (chain_app_hd _ _ Hc Hn) in Hsum |- *.
    simpl map in Hsum |- *.
    change (arc_sum entry (loc i :: loc (next i) :: map loc (tl (l ++ [N]))))
      with (match entry (loc i) (loc (next i)),
                  arc_sum entry (loc (next i) :: map loc (tl (l ++ [N]))) with
            | Some v, Some total0 => Some (v + total0)
            | _, _ => None
            end).
    rewrite Ht, Hsum. split; [reflexivity | lia].
Qed.

(** Without slack the cumulated values are the running sums. *)
Lemma chain_running : slack_max dim = 0 ->
  forall i l, Path.chain N next i l -> (i <= N)%nat ->
  running entry (loc i) (cumul i) (map loc (tl (l ++ [N]))) =
  Some (map cumul (tl (l ++ [N]))).
Proof.
  intros Hz. induction 1 as [i Hi | i l Hi Hc IH]; intros Hile.
  - reflexivity.
  - assert (Hn : (next i <= N)%nat) by (apply (Facts.nexts_dom mg next Hnexts); exact Hi).
    specialize (IH Hn).
    destruct (arc_step i Hi) as (t & Ht & Hs).
    change (tl ((i :: l) ++ [N])) with (l ++ [N]).
    rewrite (chain_app_hd _ _ Hc Hn). simpl. rewrite Ht.
    assert (E : cumul i + t = cumul (next i)) by lia.
    rewrite E, IH. reflexivity.
Qed.

(** With transits that are not negative the cumulated values do not
    decrease along the route. *)
Lemma chain_sorted :
  (forall from to v, entry from to = Some v -> 0 <= v) ->
  forall i l, Path.chain N next i l -> (i <= N)%nat ->
  Sorted Z.le (map cumul (l ++ [N])).
Proof.
  intros Hpos. induction 1 as [i Hi | i l Hi Hc IH]; intros Hile.
  - simpl. repeat constructor.
  - assert (Hn : (next i <= N)%nat) by (apply (Facts.nexts_dom mg next Hnexts); exact Hi).
    specialize (IH Hn).
    destruct (arc_step i Hi) as (t & Ht & Hs).
    change ((i :: l) ++ [N]) with (i :: (l ++ [N])).
    simpl. constructor; [exact IH |].
    rewrite (chain_app_hd _ _ Hc Hn). simpl. constructor.
    apply Hpos in Ht. lia.
Qed.

End Dim.

End Along.

(** ** Inputs that are not negative *)

Module InputsFacts.

Import Inputs.

Lemma nonnegative_matrix_entry : forall m i j q,
  nonnegative_matrix m = true -> Py.getitem2 m i j = Some q -> (0 <= q)%Q.
Proof.
  intros m i j q H Hq. unfold Py.getitem2 in Hq.
  destruct (nth_error m i) as [row |] eqn:Hrow; [| discriminate].
  apply nth_error_In in Hrow, Hq.
  unfold nonnegative_matrix in H. rewrite forallb_forall in H.
  specialize (H row Hrow). rewrite forallb_forall in H.
  apply Qle_bool_iff. now apply H.
Qed.

Lemma nonnegative_list_entry : forall l i z,
  nonnegative_list l = true -> nth_error l i = Some z -> (0 <= z)%Z.
Proof.
  intros l i z H Hz. apply nth_error_In in Hz.
  unfold nonnegative_list in H. rewrite forallb_forall in H.
  apply Z.leb_le. now apply H.
Qed.

End InputsFacts.

(** ** Truncation *)

Module Trunc.

Lemma int_nonneg : forall q : Q, (0 <= q)%Q -> (0 <= Py.int q)%Z.
Proof.
  intros [n d] H. unfold Py.int. simpl.
  unfold Qle in H. simpl in H.
  apply Z.quot_pos; lia.
Qed.

Lemma int_le : forall q : Q, (0 <= q)%Q -> (inject_Z (Py.int q) <= q)%Q.
Proof.
  intros [n d] H. unfold Py.int, Qle in *. simpl in *.
  pose proof (Z.mul_quot_le n (Zpos d)) as G.
  rewrite (Z.mul_comm (n ÷ Z.pos d)). lia.
Qed.

(** On entries that are not negative, rounding toward zero is rounding
    down. *)
Lemma int_floor : forall q : Q, (0 <= q)%Q -> Py.int q = Qfloor q.
Proof.
  intros [n d] H. unfold Py.int, Qfloor, Qle in *. simpl in *.
  apply Z.quot_div_nonneg; lia.
Qed.

Lemma getitem2_astype_eq : forall (m : list (list Q)) i j,
  Py.getitem2 (Py.astype_int_tolist m) i j
  = option_map Py.int (Py.getitem2 m i j).
Proof.
  intros m i j. unfold Py.getitem2, Py.astype_int_tolist.
  rewrite nth_error_map.
  destruct (nth_error m i) as [row |]; [| reflexivity].
  simpl. now rewrite nth_error_map.
Qed.

Lemma getitem2_astype : forall (m : list (list Q)) i j v,
  Py.getitem2 (Py.astype_int_tolist m) i j = Some v ->
  exists q, Py.getitem2 m i j = Some q /\ v = Py.int q.
Proof.
  intros m i j v H. unfold Py.getitem2, Py.astype_int_tolist in *.
  rewrite nth_error_map in H.
  destruct (nth_error m i) as [row |]; [| discriminate].
  simpl in H. rewrite nth_error_map in H.
  destruct (nth_error row j) as [q |]; [| discriminate].
  simpl in H. inversion H. now exists q.
Qed.

End Trunc.

(** ** The ranges set from the time windows *)

Module Windows.

Import Routing VRPSolver.
Local Open Scope nat_scope.

Lemma enumerate_in : forall (A : Type) (l : list A) i w,
  nth_error l i = Some w -> In (i, w) (Py.enumerate l).
Proof.
  intros A l. unfold Py.enumerate.
  assert (G : forall b i w, nth_error l i = Some w ->
              In (b + i, w) (combine (seq b (List.length l)) l)).
  { induction l as [| x l IH]; intros b i w H.
    - destruct i; discriminate.
    - destruct i as [| i]; simpl in H |- *.
      + inversion H; subst. left. f_equal. lia.
      + right. replace (b + S i) with (S b + i) by lia. now apply IH. }
  intros i w H. exact (G 0 i w H).
Qed.

Lemma client_ranges_in : forall data mg ws clients,
  client_ranges data mg ws = Some clients ->
  forall i w, In (i, w) ws -> i <> depot data -> In (i, w) clients.
Proof.
  intros data mg. induction ws as [| [j v] ws IH]; intros clients H i w Hin Hne.
  - destruct Hin.
  - simpl in H. destruct (Nat.eqb_spec j (depot data)) as [Ej | Ej].
    + destruct Hin as [E | Hin]; [inversion E; subst; contradiction |].
      now apply IH.
    + unfold NodeToIndex in H.
      destruct (j <? num_nodes mg); [| discriminate].
      destruct (client_ranges data mg ws) as [rest |]; [| discriminate].
      simpl in H. inversion H; subst.
      destruct Hin as [E | Hin]; [left; exact E | right; now apply IH].
Qed.

(** Every location that has a window and is an index of the walk has the
    window as range of its cumulated time. *)
Lemma window_range : forall data clients dep i w,
  client_ranges data (manager_of data) (Py.enumerate (time_windows data))
    = Some clients ->
  depot_range data (manager_of data) = Some dep ->
  nth_error (time_windows data) i = Some w ->
  In (i, w) (clients ++ [dep]).
Proof.
  intros data clients dep i w Hc Hd Hw. apply in_or_app.
  destruct (Nat.eq_dec i (depot data)) as [E | E].
  - right. subst i. unfold depot_range, NodeToIndex in Hd. cbv zeta in Hd.
    destruct (depot data <? _); [| discriminate].
    rewrite Hw in Hd. inversion Hd. now left.
  - left. eapply client_ranges_in; [exact Hc | | exact E].
    now apply enumerate_in.
Qed.

Lemma enumerate_bound : forall (A : Type) (l : list A) i w,
  In (i, w) (Py.enumerate l) -> i < List.length l.
Proof.
  intros A l i w H. unfold Py.enumerate in H.
  apply in_combine_l, in_seq in H. lia.
Qed.

(** The loop over the windows goes through when every window belongs to a
    location of the model. *)
Lemma client_ranges_total : forall data mg ws,
  (forall i w, In (i, w) ws -> i < num_nodes mg) ->
  exists clients, client_ranges data mg ws = Some clients.
Proof.
  intros data mg. induction ws as [| [j v] ws IH]; intros H.
  - now exists [].
  - destruct IH as (rest & Hrest).
    { intros i w Hin. apply (H i w). now right. }
    simpl. rewrite Hrest.
    destruct (j =? depot data); [now exists rest |].
    unfold NodeToIndex.
    assert (Hj : j < num_nodes mg) by (apply (H j v); now left).
    apply Nat.ltb_lt in Hj. rewrite Hj. simpl. now eexists.
Qed.

End Windows.

(** ** The instance that no assignment satisfies *)

Module ClosedFacts.

Import Routing VRPSolver Closed.
Local Open Scope nat_scope.

(** No assignment meets the constraints of this instance. *)
Lemma infeasible : forall m a,
  routing_model data = Some m -> satisfies m a = false.
Proof.
  intros m a Hm. destruct (satisfies m a) eqn:Hsat; [| reflexivity].
  exfalso.
  destruct (Solved.satisfies_inv _ _ _ Hm Hsat)
    as (clients & dep & _ & _ & Hc & Hd & Hok & _ & Ht).
  vm_compute in Hc. inversion Hc; subst clients. clear Hc.
  vm_compute in Hd. inversion Hd; subst dep. clear Hd.
  destruct (Facts.start_chain _ _ Hok) as (ls & Hch & Hlen & Hnd & Hin);
    [vm_compute; lia |].
  change (Start (manager_of data)) with 0 in *.
  change (Size (manager_of data)) with 2 in *.
  destruct ls as [| x [| y ls]]; try discriminate.
  assert (x = 1).
  { destruct (proj1 (Hin 1)) as [E | [E | []]]; [lia | discriminate | now symmetry]. }
  subst x.
  inversion Hch as [| i l _ Hc1]; subst.
  inversion Hc1 as [| i l _ _ E1 E2]; subst.
  assert (H01 : 0 < 2) by lia.
  destruct (Facts.cumul_arc _ _ _ _ Ht 0 H01) as (t & Et & Hb).
  rewrite E2 in Et, Hb. vm_compute in Et. inversion Et; subst t.
  pose proof (Facts.cumul_capacity _ _ _ _ Ht 0 ltac:(vm_compute; lia)) as H0.
  pose proof (Facts.cumul_range _ _ _ _ Ht 1 0%Z 5%Z ltac:(simpl; tauto)) as H1.
  simpl in Hb. lia.
Qed.

End ClosedFacts.

(** ** The matrices of the geometric fallback *)

Module Fallback.

Import DistanceMatrixCalculator Inputs.
Local Open Scope R_scope.

Lemma length_update : forall (A : Type) (l : list A) i f,
  List.length (update l i f) = List.length l.
Proof.
  induction l as [| x l IH]; intros [| i] f; simpl; try reflexivity.
  now rewrite IH.
Qed.

Lemma nth_error_update : forall (A : Type) (l : list A) i f k,
  nth_error (update l i f) k =
  if (k =? i)%nat then option_map f (nth_error l k) else nth_error l k.
Proof.
  induction l as [| x l IH]; intros i f k.
  - destruct i, k; simpl; try reflexivity.
    destruct (k =? i)%nat; reflexivity.
  - destruct i as [| i], k as [| k]; simpl; try reflexivity. apply IH.
Qed.

Lemma well_shaped_zeros : forall n, well_shaped n (zeros n n).
Proof.
  intros n. unfold zeros. split; [apply repeat_length |]. split.
  - intros row H. apply repeat_spec in H. subst. apply repeat_length.
  - intros i j x H. unfold Py.getitem2 in H.
    destruct (nth_error (repeat (repeat 0 n) n) i) as [row |] eqn:E;
      [| discriminate].
    apply nth_error_In, repeat_spec in E. subst row.
    apply nth_error_In, repeat_spec in H. subst x.
    split; [apply Rle_refl | reflexivity].
Qed.

Lemma well_shaped_setitem2 : forall n m i j v,
  well_shaped n m -> i <> j -> 0 <= v -> well_shaped n (setitem2 m i j v).
Proof.
  intros n m i j v (Hlen & Hrows & Hent) Hij Hv. unfold setitem2.
  split; [now rewrite length_update |]. split.
  - intros row Hin. apply In_nth_error in Hin. destruct Hin as (k & Hk).
    rewrite nth_error_update in Hk.
    destruct (k =? i)%nat.
    + destruct (nth_error m k) as [row0 |] eqn:E; [| discriminate].
      simpl in Hk. inversion Hk. rewrite length_update.
      apply Hrows. eapply nth_error_In; eassumption.
    + apply Hrows. eapply nth_error_In; eassumption.
  - intros a b x H. unfold Py.getitem2 in H.
    rewrite nth_error_update in H.
    destruct (Nat.eqb_spec a i) as [-> | Ha].
    + destruct (nth_error m i) as [row0 |] eqn:E; [| discriminate].
      simpl in H. rewrite nth_error_update in H.
      destruct (Nat.eqb_spec b j) as [-> | Hb].
      * destruct (nth_error row0 j); [| discriminate].
        simpl in H. inversion H; subst x.
        split; [exact Hv | intros; contradiction].
      * apply (Hent i b x). unfold Py.getitem2. now rewrite E.
    + apply (Hent a b x). unfold Py.getitem2. exact H.
Qed.

Lemma well_shaped_cell : forall locs n i j state,
  well_shaped n (fst state) /\ well_shaped n (snd state) ->
  well_shaped n (fst (fallback_cell locs i j state)) /\
  well_shaped n (snd (fallback_cell locs i j state)).
Proof.
  intros locs n i j state [H1 H2]. unfold fallback_cell.
  destruct (Nat.eqb_spec i j) as [E | E]; [split; assumption |].
  destruct (nth i locs (0, 0)) as [lat1 lon1].
  destruct (nth j locs (0, 0)) as [lat2 lon2].
  cbv zeta. simpl fst. simpl snd.
  set (dist := sqrt _).
  assert (Hd : 0 <= dist) by apply sqrt_pos.
  split; apply well_shaped_setitem2; try assumption. lra.
Qed.

Lemma well_shaped_row : forall locs n i js state,
  well_shaped n (fst state) /\ well_shaped n (snd state) ->
  let state' := fold_left (fun s j => fallback_cell locs i j s) js state in
  well_shaped n (fst state') /\ well_shaped n (snd state').
Proof.
  intros locs n i js. induction js as [| j js IH]; intros state H.
  - exact H.
  - simpl. apply IH. now apply well_shaped_cell.
Qed.

Lemma well_shaped_rows : forall locs n js rows state,
  well_shaped n (fst state) /\ well_shaped n (snd state) ->
  let state' :=
    fold_left
      (fun s i => fold_left (fun s' j => fallback_cell locs i j s') js s)
      rows state in
  well_shaped n (fst state') /\ well_shaped n (snd state').
Proof.
  intros locs n js rows. induction rows as [| i rows IH]; intros state H.
  - exact H.
  - simpl. apply IH. now apply (well_shaped_row locs n i js state).
Qed.

End Fallback.

(** ** The claims *)

Module Spec.

Import Routing VRPSolver Recompute DistanceMatrixCalculator.
Local Open Scope nat_scope.

(** C1.  With fuel for one loop iteration per location the extraction
    ends, and every returned route has [N + 1] stops, starts at location 0,
    ends at location 0 and holds every other location exactly once;
    [num_locations] is [N]. *)
Theorem C1_route_is_a_tour :
  forall search fuel time_limit dm tm tw st max_distance max_time,
    sound search -> List.length dm <= fuel ->
    let data := create_data_model dm tm tw st max_distance max_time in
    let N := List.length dm in
    solve search fuel data time_limit <> Unfinished /\
    forall sol, solve search fuel data time_limit = Returns (Some sol) ->
      List.length (route sol) = N + 1 /\
      hd_error (map location_index (route sol)) = Some 0 /\
      nth_error (map location_index (route sol)) N = Some 0 /\
      (forall k, 1 <= k < N ->
         count_occ Nat.eq_dec (map location_index (route sol)) k = 1) /\
      num_locations sol = N.
Proof.
  intros search fuel time_limit dm tm tw st max_distance max_time Hsound Hfuel
         data N.
  assert (HN : List.length (distance_matrix data) = N).
  { unfold data, N. simpl. unfold Py.astype_int_tolist. apply length_map. }
  split.
  - destruct (Solved.solve_cases search fuel data time_limit Hsound)
      as [[_ E] | [(m & _ & _ & E) | (m & a & s & _ & _ & _ & _ & E)]];
      try (rewrite HN; exact Hfuel); rewrite E; discriminate.
  - intros sol Hsol.
    destruct (Solved.returned search fuel data time_limit sol Hsound)
      as (m & a & ls & clients & dep & H); [rewrite HN; exact Hfuel | exact Hsol |].
    cbv zeta in H. rewrite HN in H.
    destruct H as (_ & Hmg & _ & _ & _ & _ & _ & _ & _ & Hlen & Hnd & Hin & ->).
    change (depot data) with 0 in *.
    assert (Hlocs : map location_index
              (map (stop_at m a) ((0 :: ls) ++ [N])) = (0 :: ls) ++ [0]).
    { rewrite <- HN. apply (Solved.route_locations m a data (0 :: ls) Hmg).
      intros j Hj. rewrite HN. now apply Hin. }
    cbn [route num_locations]. rewrite Hlocs.
    split; [rewrite length_map, length_app, Hlen; reflexivity |].
    split; [reflexivity |].
    split.
    { rewrite nth_error_app2 by (rewrite Hlen; lia).
      rewrite Hlen, Nat.sub_diag. reflexivity. }
    split; [| reflexivity].
    intros k Hk. rewrite count_occ_app.
    assert (Hk1 : count_occ Nat.eq_dec (0 :: ls) k = 1).
    { apply NoDup_count_occ'; [exact Hnd | apply Hin; lia]. }
    rewrite Hk1. destruct k as [| k]; [lia | reflexivity].
Qed.

Lemma C1_route_is_a_tour_witness :
  sound (proposing Day.plan) /\ 3 <= 3 /\
  solve (proposing Day.plan) 3 Day.data 30 =
    Returns (Some {| route := [ mkStop 0 0 0; mkStop 1 10 1000;
                                mkStop 2 55 2500; mkStop 0 105 4500 ];
                     total_distance_km := (4500 / 1000)%Q;
                     total_time_minutes := 105;
                     num_locations := 3 |}) /\
  (solve (proposing Day.plan) 3 Day.data 30 <> Unfinished /\
   forall sol, solve (proposing Day.plan) 3 Day.data 30 = Returns (Some sol) ->
     List.length (route sol) = 3 + 1 /\
     hd_error (map location_index (route sol)) = Some 0 /\
     nth_error (map location_index (route sol)) 3 = Some 0 /\
     (forall k, 1 <= k < 3 ->
        count_occ Nat.eq_dec (map location_index (route sol)) k = 1) /\
     num_locations sol = 3).
Proof.
  split; [apply Solved.proposing_sound |].
  split; [lia |].
  split; [vm_compute; reflexivity |].
  apply (C1_route_is_a_tour (proposing Day.plan) 3 30 Day.distances
           Day.durations Day.windows Day.services 100%Q 480%Z).
  - apply Solved.proposing_sound.
  - simpl. lia.
Defined.


























End Spec.

(** ** More about returned routes

    Facts about every data model, whatever its depot and whatever the fuel
    the extraction was given. *)

Module Returned.

Import Routing VRPSolver Recompute.
Local Open Scope nat_scope.

Lemma extract_loop_mono : forall m a fuel index acc r,
  extract_loop m a fuel index acc = Some r ->
  forall fuel', fuel <= fuel' -> extract_loop m a fuel' index acc = Some r.
Proof.
  intros m a. induction fuel as [| fuel IH]; intros index acc r H fuel' Hle.
  - simpl in H. destruct (IsEnd (manager m) index) eqn:E; [| discriminate].
    destruct fuel'; simpl; rewrite E; exact H.
  - destruct fuel' as [| fuel']; [lia |].
    simpl in H |- *. destruct (IsEnd (manager m) index); [exact H |].
    apply IH with (fuel' := fuel') in H; [exact H | lia].
Qed.

Lemma extract_solution_mono : forall m a fuel sol,
  _extract_solution m a fuel = Some sol ->
  forall fuel', fuel <= fuel' -> _extract_solution m a fuel' = Some sol.
Proof.
  intros m a fuel sol H fuel' Hle. unfold _extract_solution in *.
  destruct (extract_loop m a fuel (Start (manager m)) []) as [[r i] |] eqn:E;
    [| discriminate].
  now rewrite (extract_loop_mono _ _ _ _ _ _ E fuel' Hle).
Qed.

(** A returned solution, described as in [Solved.returned], for any fuel. *)
Lemma described : forall search fuel data time_limit sol,
  sound search ->
  solve search fuel data time_limit = Returns (Some sol) ->
  exists m a ls clients dep,
    let N := List.length (distance_matrix data) in
    routing_model data = Some m /\
    manager m = manager_of data /\
    depot data < N /\
    client_ranges data (manager_of data) (Py.enumerate (time_windows data))
      = Some clients /\
    depot_range data (manager_of data) = Some dep /\
    nexts_ok (manager_of data) (Value_NextVar a) = true /\
    dimension_ok (manager_of data) (Value_NextVar a)
      (distance_dimension data (manager_of data))
      (Min_CumulVar a "Distance") = true /\
    dimension_ok (manager_of data) (Value_NextVar a)
      (time_dimension data (manager_of data) clients dep)
      (Min_CumulVar a "Time") = true /\
    Path.chain N (Value_NextVar a) (depot data) (depot data :: ls) /\
    List.length (depot data :: ls) = N /\
    NoDup (depot data :: ls) /\
    (forall j, j < N <-> In j (depot data :: ls)) /\
    sol = {| route := map (stop_at m a) ((depot data :: ls) ++ [N]);
             total_distance_km :=
               (inject_Z (Min_CumulVar a "Distance" N) / 1000)%Q;
             total_time_minutes := Min_CumulVar a "Time" N;
             num_locations := N |}.
Proof.
  intros search fuel data time_limit sol Hsound Hsolve.
  set (fuel' := Nat.max fuel (List.length (distance_matrix data))).
  apply (Solved.returned search fuel' data time_limit sol Hsound).
  - unfold fuel'. lia.
  - unfold solve in *.
    destruct (routing_model data) as [m |]; [| discriminate].
    destruct (solution (search m (search_parameters time_limit))) as [a |];
      [| discriminate].
    destruct (_extract_solution m a fuel) as [s |] eqn:E; [| discriminate].
    rewrite (extract_solution_mono _ _ _ _ E fuel') by (unfold fuel'; lia).
    exact Hsolve.
Qed.

Section Walk.

Variable N : nat.
Variable next : nat -> nat.

(** Every index of a walk but the first is the successor of an index of
    the walk. *)
Lemma chain_pred : forall i l, Path.chain N next i l ->
  forall k, In k l -> k <> i ->
  exists j, In j l /\ j < N /\ next j = k.
Proof.
  induction 1 as [i Hi | i l Hi Hc IH]; intros k Hin Hne.
  - destruct Hin.
  - destruct Hin as [E | Hin]; [congruence |].
    destruct (Nat.eq_dec k (next i)) as [E | E].
    + exists i. split; [now left | split; [exact Hi | now symmetry]].
    + destruct (IH k Hin E) as (j & Hj & Hlt & Hn).
      exists j. split; [now right | split; assumption].
Qed.

End Walk.

(** The arrival of every stop of a returned route lies between zero and the
    time capacity; it lies in the window of its location, unless the stop
    is the closing return to the depot. *)
Lemma arrivals : forall search fuel data time_limit sol,
  sound search ->
  solve search fuel data time_limit = Returns (Some sol) ->
  forall stop, In stop (route sol) ->
    (0 <= arrival_time stop <= vehicle_time_capacity data)%Z /\
    ((forall earliest latest,
        nth_error (time_windows data) (location_index stop)
          = Some (earliest, latest) ->
        (earliest <= arrival_time stop <= latest)%Z) \/
     location_index stop = depot data).
Proof.
  intros search fuel data time_limit sol Hsound Hsol stop Hstop.
  destruct (described search fuel data time_limit sol Hsound Hsol)
    as (m & a & ls & clients & dep & H).
  cbv zeta in H.
  destruct H as (_ & Hmg & _ & Hc & Hd & _ & _ & Ht & _ & _ & _ & Hin & ->).
  cbn [route] in Hstop. apply in_map_iff in Hstop.
  destruct Hstop as (i & <- & Hi).
  set (N := List.length (distance_matrix data)) in *.
  assert (HiN : i <= N).
  { apply in_app_or in Hi. destruct Hi as [Hi | [<- | []]]; [| lia].
    apply Hin in Hi. lia. }
  split.
  - exact (Facts.cumul_capacity _ _ _ _ Ht i HiN).
  - cbn [location_index arrival_time stop_at]. unfold IndexToNode.
    rewrite Hmg. change (num_nodes (manager_of data)) with N.
    change (start_node (manager_of data)) with (depot data).
    destruct (Nat.ltb_spec i N) as [Hlt | Hge]; [left | right; reflexivity].
    intros earliest latest Hw.
    pose proof (Windows.window_range _ _ _ _ _ Hc Hd Hw) as Hr.
    exact (Facts.cumul_range _ _ _ _ Ht _ _ _ Hr).
Qed.

End Returned.

(** ** Service along a walk *)

Module Service.

Import Routing VRPSolver Recompute Totals.
Local Open Scope Z_scope.

Lemma sum_Z_app : forall l1 l2, sum_Z (l1 ++ l2) = sum_Z l1 + sum_Z l2.
Proof.
  induction l1 as [| x l1 IH]; intros l2; simpl; [reflexivity |].
  rewrite IH. lia.
Qed.

Lemma sum_Z_perm : forall l1 l2, Permutation l1 l2 ->
  sum_Z l1 = sum_Z l2.
Proof.
  induction 1; simpl; lia.
Qed.

Lemma map_nth_seq : forall (l : list Z) d,
  map (fun x => nth x l d) (seq 0 (List.length l)) = l.
Proof.
  induction l as [| x l IH]; intros d; [reflexivity |].
  simpl. f_equal. rewrite <- seq_shift, map_map. apply IH.
Qed.

Lemma nonnegative_table_entry : forall m i j t,
  nonnegative_table m = true -> Py.getitem2 m i j = Some t -> 0 <= t.
Proof.
  intros m i j t H Ht. unfold Py.getitem2 in Ht.
  destruct (nth_error m i) as [row |] eqn:Hrow; [| discriminate].
  apply nth_error_In in Hrow, Ht.
  unfold nonnegative_table in H. rewrite forallb_forall in H.
  specialize (H row Hrow). rewrite forallb_forall in H.
  apply Z.leb_le. now apply H.
Qed.

Section Time.

Variable data : Data.
Variable next : nat -> nat.
Variable clients : list (nat * (Z * Z)).
Variable dep : nat * (Z * Z).
Variable cumul : nat -> Z.

Let mg := manager_of data.
Let N := List.length (distance_matrix data).

Hypothesis Hnexts : nexts_ok mg next = true.
Hypothesis Hdim :
  dimension_ok mg next (time_dimension data mg clients dep) cumul = true.
Hypothesis Hpos : nonnegative_table (time_matrix data) = true.

(** From any index to the end of the route the cumulated time grows at
    least by the service durations of the indices met. *)
Lemma chain_service : forall i l, Path.chain N next i l -> (i <= N)%nat ->
  sum_Z (map (fun x => nth x (service_times data) 0) l) <= cumul N - cumul i.
Proof.
  induction 1 as [i Hi | i l Hi Hc IH]; intros Hile.
  - assert (i = N) by lia. subst i. simpl. lia.
  - assert (Hn : (next i <= N)%nat)
      by (apply (Facts.nexts_dom mg next Hnexts); exact Hi).
    specialize (IH Hn).
    destruct (Facts.cumul_arc _ _ _ _ Hdim i Hi) as (t & Ht & Hb).
    cbn [transit time_dimension] in Ht.
    rewrite Along.time_callback_arc_time in Ht. unfold arc_time in Ht.
    destruct (Py.getitem2 (time_matrix data) _ _) as [travel |] eqn:Etr;
      [| discriminate].
    destruct (nth_error (service_times data) _) as [service |] eqn:Ese;
      [| discriminate].
    inversion Ht; subst t.
    apply nonnegative_table_entry in Etr; [| exact Hpos].
    unfold IndexToNode in Ese. fold N in Hi.
    change (num_nodes mg) with N in Ese.
    apply Nat.ltb_lt in Hi. rewrite Hi in Ese.
    apply nth_error_nth with (d := 0) in Ese.
    simpl. rewrite Ese. lia.
Qed.

End Time.

End Service.

(** ** The cells the loops of the fallback fill *)

Module Cells.

Import DistanceMatrixCalculator Geometry.
Local Open Scope R_scope.

Lemma getitem2_setitem2 : forall (m : list (list R)) i j v a b,
  Py.getitem2 (setitem2 m i j v) a b =
  if ((a =? i) && (b =? j))%nat
  then option_map (fun _ => v) (Py.getitem2 m a b)
  else Py.getitem2 m a b.
Proof.
  intros m i j v a b. unfold Py.getitem2, setitem2.
  rewrite Fallback.nth_error_update.
  destruct (Nat.eqb_spec a i) as [-> | Ha]; simpl.
  - destruct (nth_error m i) as [row |]; simpl.
    + rewrite Fallback.nth_error_update.
      destruct (b =? j)%nat; reflexivity.
    + destruct (b =? j)%nat; reflexivity.
  - reflexivity.
Qed.

Section Filling.

Variable locs : list (R * R).

(** One matrix filled with the values of [value], as each of the two
    matrices of the fallback is. *)
Local Abbreviation fill_cell value i :=
  (fun (m : list (list R)) (j : nat) =>
     if (i =? j)%nat then m else setitem2 m i j (value i%nat j)).

Local Abbreviation distance_value :=
  (fun i j : nat => flat_distance (nth i locs (0, 0)) (nth j locs (0, 0))).

Local Abbreviation duration_value :=
  (fun i j : nat =>
     flat_distance (nth i locs (0, 0)) (nth j locs (0, 0)) / 40 * 60).

Lemma fallback_cell_fst : forall i j state,
  fst (fallback_cell locs i j state) = fill_cell distance_value i (fst state) j.
Proof.
  intros i j state. unfold fallback_cell, flat_distance.
  destruct (i =? j)%nat; [reflexivity |].
  destruct (nth i locs (0, 0)) as [lat1 lon1].
  destruct (nth j locs (0, 0)) as [lat2 lon2]. reflexivity.
Qed.

Lemma fallback_cell_snd : forall i j state,
  snd (fallback_cell locs i j state) = fill_cell duration_value i (snd state) j.
Proof.
  intros i j state. unfold fallback_cell, flat_distance.
  destruct (i =? j)%nat; [reflexivity |].
  destruct (nth i locs (0, 0)) as [lat1 lon1].
  destruct (nth j locs (0, 0)) as [lat2 lon2]. reflexivity.
Qed.

Lemma row_fst : forall i js state,
  fst (fold_left (fun s j => fallback_cell locs i j s) js state) =
  fold_left (fill_cell distance_value i) js (fst state).
Proof.
  intros i js. induction js as [| j js IH]; intros state; [reflexivity |].
  simpl. rewrite IH, fallback_cell_fst. reflexivity.
Qed.

Lemma row_snd : forall i js state,
  snd (fold_left (fun s j => fallback_cell locs i j s) js state) =
  fold_left (fill_cell duration_value i) js (snd state).
Proof.
  intros i js. induction js as [| j js IH]; intros state; [reflexivity |].
  simpl. rewrite IH, fallback_cell_snd. reflexivity.
Qed.

Lemma rows_fst : forall js rows state,
  fst (fold_left
         (fun s i => fold_left (fun s' j => fallback_cell locs i j s') js s)
         rows state) =
  fold_left (fun m i => fold_left (fill_cell distance_value i) js m)
            rows (fst state).
Proof.
  intros js rows. induction rows as [| i rows IH]; intros state; [reflexivity |].
  simpl. rewrite IH, row_fst. reflexivity.
Qed.

Lemma rows_snd : forall js rows state,
  snd (fold_left
         (fun s i => fold_left (fun s' j => fallback_cell locs i j s') js s)
         rows state) =
  fold_left (fun m i => fold_left (fill_cell duration_value i) js m)
            rows (snd state).
Proof.
  intros js rows. induction rows as [| i rows IH]; intros state; [reflexivity |].
  simpl. rewrite IH, row_snd. reflexivity.
Qed.

Variable value : nat -> nat -> R.

Lemma option_map_const : forall (v w : R) (o : option R),
  option_map (fun _ => v) (option_map (fun _ => w) o) = option_map (fun _ => v) o.
Proof.
  intros v w [x |]; reflexivity.
Qed.

(** A filled row: the cells of row [i] in the columns gone through, off the
    diagonal, hold their value; every other cell is as before. *)
Lemma row_get : forall i js m a b,
  Py.getitem2 (fold_left (fill_cell value i) js m) a b =
  if ((a =? i) && existsb (Nat.eqb b) js && negb (a =? b))%nat
  then option_map (fun _ => value a b) (Py.getitem2 m a b)
  else Py.getitem2 m a b.
Proof.
  intros i js. induction js as [| j js IH]; intros m a b.
  - simpl. rewrite andb_false_r. reflexivity.
  - simpl fold_left. rewrite IH. simpl existsb.
    destruct (Nat.eqb_spec i j) as [Eij | Nij].
    + subst j. destruct (Nat.eqb_spec a i) as [-> | Ha]; simpl; [| reflexivity].
      destruct (Nat.eqb_spec b i) as [-> | Hb]; simpl; [| reflexivity].
      rewrite Nat.eqb_refl. simpl. rewrite andb_false_r. reflexivity.
    + rewrite getitem2_setitem2.
      destruct (Nat.eqb_spec a i) as [-> | Ha]; simpl; [| reflexivity].
      destruct (Nat.eqb_spec b j) as [-> | Hb]; simpl.
      * destruct (Nat.eqb_spec i j) as [E | _]; [contradiction |]. simpl.
        destruct (existsb (Nat.eqb j) js); simpl;
          [apply option_map_const | reflexivity].
      * reflexivity.
Qed.

(** The filled matrix. *)
Lemma rows_get : forall js rows m a b,
  Py.getitem2
    (fold_left (fun m' i => fold_left (fill_cell value i) js m') rows m) a b =
  if (existsb (Nat.eqb a) rows && existsb (Nat.eqb b) js && negb (a =? b))%nat
  then option_map (fun _ => value a b) (Py.getitem2 m a b)
  else Py.getitem2 m a b.
Proof.
  intros js rows. induction rows as [| i rows IH]; intros m a b.
  - reflexivity.
  - simpl fold_left. rewrite IH, row_get. simpl existsb.
    rewrite (Nat.eqb_sym a i).
    destruct (i =? a)%nat; simpl; [| reflexivity].
    destruct (existsb (Nat.eqb b) js); simpl;
      [| rewrite andb_false_r; reflexivity].
    destruct (negb (a =? b)%nat); simpl.
    + destruct (existsb (Nat.eqb a) rows); simpl;
        [apply option_map_const | reflexivity].
    + rewrite andb_false_r. reflexivity.
Qed.

End Filling.

Lemma existsb_seq : forall n k, (k < n)%nat -> existsb (Nat.eqb k) (seq 0 n) = true.
Proof.
  intros n k Hk. apply existsb_exists. exists k.
  split; [apply in_seq; lia | apply Nat.eqb_refl].
Qed.

Lemma getitem2_zeros : forall n a b, (a < n)%nat -> (b < n)%nat ->
  Py.getitem2 (zeros n n) a b = Some 0.
Proof.
  intros n a b Ha Hb. unfold Py.getitem2, zeros.
  rewrite (nth_error_nth' _ (repeat 0 n)) by (rewrite repeat_length; lia).
  rewrite nth_repeat.
  rewrite (nth_error_nth' _ 0) by (rewrite repeat_length; lia).
  now rewrite nth_repeat.
Qed.

End Cells.

(** ** Reading and writing clock times *)

Module ClockFacts.

Import Clock.
Local Open Scope nat_scope.

Lemma first_match_some : forall (A B : Type) (f : A -> option B) ways found,
  first_match f ways = Some found ->
  exists way, In way ways /\ f way = Some found.
Proof.
  intros A B f. induction ways as [| w ways IH]; intros found H.
  - discriminate.
  - simpl in H. destruct (f w) as [r |] eqn:E.
    + inversion H; subst. exists w. split; [now left | exact E].
    + destruct (IH _ H) as (w' & Hin & Hw'). exists w'. split; [now right | exact Hw'].
Qed.

Lemma in_class_spec : forall lo hi c,
  in_class lo hi c = true -> lo <= nat_of_ascii c <= hi.
Proof.
  intros lo hi c H. unfold in_class in H.
  apply andb_true_iff in H. destruct H as [H1 H2].
  apply Nat.leb_le in H1, H2. lia.
Qed.

Lemma match_H_bound : forall s h rest, In (h, rest) (match_H s) -> h < 24.
Proof.
  intros s h rest H. unfold match_H in H.
  repeat (apply in_app_or in H; destruct H as [H | H]).
  - destruct s as [| c1 [| c2 r]]; try destruct H.
    destruct (in_class 50 50 c1 && in_class 48 51 c2) eqn:E; [| destruct H].
    apply andb_true_iff in E. destruct E as [E1 E2].
    apply in_class_spec in E1, E2.
    destruct H as [H | []]. inversion H; subst. unfold digit. lia.
  - destruct s as [| c1 [| c2 r]]; try destruct H.
    destruct (in_class 48 49 c1 && in_class 48 57 c2) eqn:E; [| destruct H].
    apply andb_true_iff in E. destruct E as [E1 E2].
    apply in_class_spec in E1, E2.
    destruct H as [H | []]. inversion H; subst. unfold digit. lia.
  - destruct s as [| c1 r]; [destruct H |].
    destruct (in_class 48 57 c1) eqn:E; [| destruct H].
    apply in_class_spec in E.
    destruct H as [H | []]. inversion H; subst. unfold digit. lia.
Qed.

Lemma match_M_bound : forall s m rest, In (m, rest) (match_M s) -> m < 60.
Proof.
  intros s m rest H. unfold match_M in H.
  apply in_app_or in H; destruct H as [H | H].
  - destruct s as [| c1 [| c2 r]]; try destruct H.
    destruct (in_class 48 53 c1 && in_class 48 57 c2) eqn:E; [| destruct H].
    apply andb_true_iff in E. destruct E as [E1 E2].
    apply in_class_spec in E1, E2.
    destruct H as [H | []]. inversion H; subst. unfold digit. lia.
  - destruct s as [| c1 r]; [destruct H |].
    destruct (in_class 48 57 c1) eqn:E; [| destruct H].
    apply in_class_spec in E.
    destruct H as [H | []]. inversion H; subst. unfold digit. lia.
Qed.

Lemma strptime_bound : forall s h m,
  strptime_HM s = Some (h, m) -> h < 24 /\ m < 60.
Proof.
  intros s h m H. unfold strptime_HM in H.
  destruct (match_HM s) as [[[h' m'] rest] |] eqn:E; [| discriminate].
  destruct rest; [| discriminate]. inversion H; subst h' m'. clear H.
  unfold match_HM in E. apply first_match_some in E.
  destruct E as ([h0 r0] & Hin & E). simpl in E.
  destruct r0 as [| c r1]; [discriminate |].
  destruct (in_class 58 58 c); [| discriminate].
  apply first_match_some in E. destruct E as ([m0 r2] & Hin2 & E).
  simpl in E. inversion E; subst.
  split; [eapply match_H_bound | eapply match_M_bound]; eassumption.
Qed.

(** Every minute of the day is read back as it was written. *)
Lemma round_trip_minutes : forall n, n < 1440 ->
  strptime_HM (two_digits (n / 60) ++ ":" ++ two_digits (n mod 60))
  = Some (n / 60, n mod 60).
Proof.
  assert (H : forallb
                (fun n =>
                   match strptime_HM
                           (two_digits (n / 60) ++ ":" ++ two_digits (n mod 60))
                   with
                   | Some (h, m) => (h =? n / 60) && (m =? n mod 60)
                   | None => false
                   end) (seq 0 1440) = true) by (vm_compute; reflexivity).
  intros n Hn. rewrite forallb_forall in H.
  specialize (H n). rewrite in_seq in H. specialize (H ltac:(lia)).
  destruct (strptime_HM _) as [[h m] |]; [| discriminate].
  apply andb_true_iff in H. destruct H as [H1 H2].
  apply Nat.eqb_eq in H1, H2. now subst.
Qed.

Lemma round_trip : forall t : Z,
  exists h m,
    strptime_HM (strftime_HM t) = Some (h, m) /\
    datetime_of (h, m) = (t mod 1440)%Z.
Proof.
  intros t. unfold strftime_HM. cbv zeta.
  pose proof (Z.mod_pos_bound t 1440 ltac:(lia)) as Hb.
  set (n := Z.to_nat (t mod 1440)).
  assert (Hn : n < 1440) by (unfold n; lia).
  exists (n / 60), (n mod 60). split; [now apply round_trip_minutes |].
  unfold datetime_of. cbn [fst snd].
  pose proof (Nat.div_mod_eq n 60) as E.
  assert (Et : Z.of_nat n = (t mod 1440)%Z) by (unfold n; lia).
  rewrite <- Et. lia.
Qed.

Lemma int_minutes : forall x : Z, Py.int (inject_Z (60 * x) / 60) = x.
Proof.
  intros x. unfold Py.int. cbn -[Z.mul Z.quot].
  rewrite Z.mul_1_r, (Z.mul_comm 60 x). apply Z.quot_mul. lia.
Qed.

Lemma convert_value : forall time_str base_time_str d,
  convert_time_to_minutes time_str base_time_str = Some d <->
  exists target base,
    strptime_HM time_str = Some target /\
    strptime_HM base_time_str = Some base /\
    d = (datetime_of target - datetime_of base)%Z.
Proof.
  intros time_str base_time_str d. unfold convert_time_to_minutes.
  destruct (strptime_HM base_time_str) as [base |];
    destruct (strptime_HM time_str) as [target |]; cbv zeta.
  - rewrite int_minutes. split.
    + intros H. inversion H. now exists target, base.
    + intros (t' & b' & Ht & Hb & ->). inversion Ht; inversion Hb. reflexivity.
  - split; [discriminate | intros (t' & b' & Ht & _); discriminate].
  - split; [discriminate | intros (t' & b' & _ & Hb & _); discriminate].
  - split; [discriminate | intros (t' & b' & Ht & _); discriminate].
Qed.

Lemma datetime_of_bound : forall s hm,
  strptime_HM s = Some hm -> (0 <= datetime_of hm < 1440)%Z.
Proof.
  intros s [h m] H. apply strptime_bound in H. unfold datetime_of.
  cbn [fst snd]. lia.
Qed.

End ClockFacts.

(** ** What the main script prepares *)

Module MainFacts.

Import Routing VRPSolver Main.
Local Open Scope nat_scope.

(** A client and the window made of its two times. *)
Local Abbreviation reads base :=
  (fun (client : Client) (window : Z * Z) =>
     Clock.convert_time_to_minutes (time_window_start client) base
       = Some (fst window) /\
     Clock.convert_time_to_minutes (time_window_end client) base
       = Some (snd window)).

Local Abbreviation loop_body base :=
  (fun (state : option (list (Z * Z) * list Z)) (client : Client) =>
     match state with
     | None => None
     | Some (time_windows, service_times) =>
         match Clock.convert_time_to_minutes (time_window_start client) base with
         | None => None
         | Some tw_start =>
             match Clock.convert_time_to_minutes (time_window_end client) base with
             | None => None
             | Some tw_end =>
                 Some (time_windows ++ [(tw_start, tw_end)],
                       service_times ++ [service_duration client])
             end
         end
     end).

Lemma loop_none : forall base clients,
  fold_left (loop_body base) clients None = None.
Proof.
  intros base. induction clients as [| c clients IH]; [reflexivity | exact IH].
Qed.

Lemma loop_some : forall base clients tw0 st0 tw st,
  fold_left (loop_body base) clients (Some (tw0, st0)) = Some (tw, st) ->
  exists tail,
    tw = tw0 ++ tail /\
    Forall2 (reads base) clients tail /\
    st = st0 ++ map service_duration clients.
Proof.
  intros base. induction clients as [| c clients IH]; intros tw0 st0 tw st H.
  - simpl in H. inversion H; subst. exists [].
    rewrite !app_nil_r. repeat split. constructor.
  - simpl in H.
    destruct (Clock.convert_time_to_minutes (time_window_start c) base)
      as [s |] eqn:Es; [| rewrite loop_none in H; discriminate].
    destruct (Clock.convert_time_to_minutes (time_window_end c) base)
      as [e |] eqn:Ee; [| rewrite loop_none in H; discriminate].
    destruct (IH _ _ _ _ H) as (tail & -> & Hall & ->).
    exists ((s, e) :: tail). rewrite <- !app_assoc. simpl.
    repeat split. constructor; [split; assumption | exact Hall].
Qed.

Lemma loop_fails : forall base clients tw0 st0,
  fold_left (loop_body base) clients (Some (tw0, st0)) = None <->
  exists client,
    In client clients /\
    (Clock.convert_time_to_minutes (time_window_start client) base = None \/
     Clock.convert_time_to_minutes (time_window_end client) base = None).
Proof.
  intros base. induction clients as [| c clients IH]; intros tw0 st0.
  - simpl. split; [discriminate | intros (c & [] & _)].
  - simpl.
    destruct (Clock.convert_time_to_minutes (time_window_start c) base)
      as [s |] eqn:Es.
    + destruct (Clock.convert_time_to_minutes (time_window_end c) base)
        as [e |] eqn:Ee.
      * rewrite IH. split.
        -- intros (c' & Hin & H). exists c'. split; [now right | exact H].
        -- intros (c' & [<- | Hin] & H).
           ++ rewrite Es, Ee in H. destruct H; discriminate.
           ++ exists c'. split; assumption.
      * rewrite loop_none. split; [| reflexivity].
        intros _. exists c. split; [now left | now right].
    + rewrite loop_none. split; [| reflexivity].
      intros _. exists c. split; [now left | now left].
Qed.

Lemma loop_reads_all : forall base clients tw0 st0 tw st,
  fold_left (loop_body base) clients (Some (tw0, st0)) = Some (tw, st) ->
  forall client, In client clients ->
    Clock.convert_time_to_minutes (time_window_start client) base <> None /\
    Clock.convert_time_to_minutes (time_window_end client) base <> None.
Proof.
  intros base clients tw0 st0 tw st H client Hin.
  split; intros Hnone.
  - assert (F : fold_left (loop_body base) clients (Some (tw0, st0)) = None)
      by (apply loop_fails; exists client; split; [exact Hin | now left]).
    congruence.
  - assert (F : fold_left (loop_body base) clients (Some (tw0, st0)) = None)
      by (apply loop_fails; exists client; split; [exact Hin | now right]).
    congruence.
Qed.

(** A successful preparation, taken apart. *)
Lemma prepare_some : forall config clients dm tm data,
  prepare config clients dm tm = Some data ->
  exists tail work_end,
    Forall2 (reads (working_start config)) clients tail /\
    Clock.convert_time_to_minutes (working_end config) (working_start config)
      = Some work_end /\
    data = create_data_model (map (map (fun x => x * 1000)%Q) dm) tm
             ((0%Z, work_end) :: tail)
             (0%Z :: map service_duration clients)
             (max_distance_km config) work_end.
Proof.
  intros config clients dm tm data H. unfold prepare, windows_loop in H.
  cbv zeta in H.
  destruct (fold_left _ clients _) as [[tw st] |] eqn:E; [| discriminate].
  apply loop_some in E. destruct E as (tail & -> & Hall & ->).
  destruct (Clock.convert_time_to_minutes (working_end config)
              (working_start config)) as [work_end |] eqn:Ew; [| discriminate].
  inversion H. exists tail, work_end. repeat split; assumption.
Qed.

End MainFacts.

(** ** The rows of the schedule *)

Module ScheduleFacts.

Import VRPSolver.
Local Open Scope nat_scope.

Section Rows.

Variable format_address : Main.Client -> string.
Variable solution : Solution.
Variable clients_df : list Main.Client.
Variable config : Main.Config.
Variable distance_matrix : list (list Q).
Variable time_matrix : list (list Q).

Local Abbreviation row_of :=
  (ScheduleGenerator.schedule_row format_address solution clients_df config
     distance_matrix time_matrix).

Local Abbreviation rows_of :=
  (ScheduleGenerator.schedule_rows format_address solution clients_df config
     distance_matrix time_matrix).

(** The rows are made stop by stop. *)
Lemma rows_nth : forall start stops i rows,
  rows_of start i stops = Some rows ->
  List.length rows = List.length stops /\
  forall k stop, nth_error stops k = Some stop ->
    exists row, nth_error rows k = Some row /\
                row_of start (i + k) stop = Some row.
Proof.
  intros start. induction stops as [| stop stops IH]; intros i rows H.
  - simpl in H. inversion H; subst. split; [reflexivity |].
    intros k s Hk. destruct k; discriminate.
  - simpl in H. destruct (row_of start i stop) as [row |] eqn:E; [| discriminate].
    destruct (rows_of start (S i) stops) as [rest |] eqn:Er; [| discriminate].
    simpl in H. inversion H; subst rows. clear H.
    destruct (IH _ _ Er) as [Hlen Hnth].
    split; [simpl; now rewrite Hlen |].
    intros k s Hk. destruct k as [| k].
    + simpl in Hk. inversion Hk; subst s. exists row.
      rewrite Nat.add_0_r. split; [reflexivity | exact E].
    + simpl in Hk. destruct (Hnth k s Hk) as (r & Hr & Hrow).
      exists r. split; [exact Hr |].
      replace (i + S k) with (S i + k) by lia. exact Hrow.
Qed.

(** What every row holds: its number, the arrival written as a time of
    day, and the service time. *)
Lemma row_common : forall start i stop row,
  row_of start i stop = Some row ->
  ScheduleGenerator.sequence row = i + 1 /\
  exists arrival,
    Clock.add_minutes start (arrival_time stop) = Some arrival /\
    ScheduleGenerator.arrival_time row = Clock.strftime_HM arrival.
Proof.
  intros start i stop row H. unfold ScheduleGenerator.schedule_row in H.
  cbv zeta in H. rewrite Along.int_inject_Z in H.
  destruct (Clock.add_minutes start (arrival_time stop)) as [arrival |];
    [| discriminate].
  destruct (location_index stop =? 0).
  - destruct (i =? 0).
    + inversion H; subst. split; [reflexivity |]. now exists arrival.
    + destruct (ScheduleGenerator.from_previous _ _ _ _ _) as [[d t] |];
        [| discriminate].
      inversion H; subst. split; [reflexivity |]. now exists arrival.
  - destruct (nth_error clients_df _) as [client |]; [| discriminate].
    destruct (if 0 <? i then _ else _) as [[d t] |]; [| discriminate].
    destruct (Clock.add_minutes arrival _) as [finish |]; [| discriminate].
    inversion H; subst. split; [reflexivity |]. now exists arrival.
Qed.

(** The three kinds of rows. *)
Lemma row_kind : forall start i stop row,
  row_of start i stop = Some row ->
  (location_index stop = 0 /\ i = 0 /\
   ScheduleGenerator.client_id row = "DEPOT"%string /\
   ScheduleGenerator.activity row = "Depart Office"%string /\
   ScheduleGenerator.cumulative_distance_km row = 0%Q) \/
  (location_index stop = 0 /\ i <> 0 /\
   ScheduleGenerator.client_id row = "DEPOT"%string /\
   ScheduleGenerator.activity row = "Return to Office"%string /\
   ScheduleGenerator.cumulative_distance_km row
     = (inject_Z (cumulative_distance stop) / 1000)%Q) \/
  (location_index stop <> 0 /\
   exists client,
     nth_error clients_df (location_index stop - 1) = Some client /\
     ScheduleGenerator.client_id row = Main.client_id client /\
     ScheduleGenerator.location row = Main.client_name client /\
     ScheduleGenerator.service_duration row = Main.service_duration client /\
     ScheduleGenerator.cumulative_distance_km row
       = (inject_Z (cumulative_distance stop) / 1000)%Q).
Proof.
  intros start i stop row H. unfold ScheduleGenerator.schedule_row in H.
  cbv zeta in H.
  destruct (Clock.add_minutes start _) as [arrival |]; [| discriminate].
  destruct (Nat.eqb_spec (location_index stop) 0) as [E0 | E0].
  - destruct (Nat.eqb_spec i 0) as [Ei | Ei].
    + left. inversion H; subst. repeat split; assumption || reflexivity.
    + right. left.
      destruct (ScheduleGenerator.from_previous _ _ _ _ _) as [[d t] |];
        [| discriminate].
      inversion H; subst. repeat split; assumption || reflexivity.
  - right. right. split; [exact E0 |].
    destruct (nth_error clients_df _) as [client |]; [| discriminate].
    destruct (if 0 <? i then _ else _) as [[d t] |]; [| discriminate].
    destruct (Clock.add_minutes arrival _) as [finish |]; [| discriminate].
    inversion H; subst. exists client. cbn.
    rewrite Along.int_inject_Z. repeat split; reflexivity.
Qed.

(** The leg shown on a row after the first. *)
Lemma row_leg : forall start i stop row,
  row_of start i stop = Some row -> 0 < i ->
  exists previous distance travel_time,
    nth_error (route solution) (i - 1) = Some previous /\
    Py.getitem2 distance_matrix (location_index previous) (location_index stop)
      = Some distance /\
    Py.getitem2 time_matrix (location_index previous) (location_index stop)
      = Some travel_time /\
    ScheduleGenerator.distance_from_previous_km row = distance /\
    ScheduleGenerator.travel_time_from_previous_min row = Py.int travel_time.
Proof.
  intros start i stop row H Hi. unfold ScheduleGenerator.schedule_row in H.
  cbv zeta in H.
  destruct (Clock.add_minutes start _) as [arrival |]; [| discriminate].
  assert (Hprev : forall d t,
            ScheduleGenerator.from_previous solution distance_matrix time_matrix
              i (location_index stop) = Some (d, t) ->
            exists previous,
              nth_error (route solution) (i - 1) = Some previous /\
              Py.getitem2 distance_matrix (location_index previous)
                (location_index stop) = Some d /\
              Py.getitem2 time_matrix (location_index previous)
                (location_index stop) = Some t).
  { intros d t Hf. unfold ScheduleGenerator.from_previous in Hf.
    destruct (nth_error (route solution) (i - 1)) as [previous |];
      [| discriminate].
    cbv zeta in Hf.
    destruct (Py.getitem2 distance_matrix _ _) as [d' |] eqn:Ed;
      [| discriminate].
    destruct (Py.getitem2 time_matrix _ _) as [t' |] eqn:Et; [| discriminate].
    inversion Hf; subst. exists previous.
    split; [reflexivity |]. split; assumption. }
  destruct (location_index stop =? 0).
  - destruct (Nat.eqb_spec i 0) as [Ei | Ei]; [lia |].
    destruct (ScheduleGenerator.from_previous _ _ _ _ _) as [[d t] |] eqn:Ef;
      [| discriminate].
    destruct (Hprev d t eq_refl) as (previous & Hp & Hd & Ht).
    inversion H; subst. exists previous, d, t. repeat split; assumption.
  - destruct (nth_error clients_df _) as [client |]; [| discriminate].
    destruct (Nat.ltb_spec 0 i) as [_ | Hbad]; [| lia].
    destruct (ScheduleGenerator.from_previous _ _ _ _ _) as [[d t] |] eqn:Ef;
      [| discriminate].
    destruct (Clock.add_minutes arrival _) as [finish |]; [| discriminate].
    destruct (Hprev d t eq_refl) as (previous & Hp & Hd & Ht).
    inversion H; subst. exists previous, d, t. repeat split; assumption.
Qed.

End Rows.

Lemma map_field_nth_seq : forall (A B : Type) (f : A -> B) (l : list A) d,
  map (fun j => f (nth j l d)) (seq 0 (List.length l)) = map f l.
Proof.
  intros A B f l d. induction l as [| x l IH]; [reflexivity |].
  simpl. f_equal. rewrite <- seq_shift, map_map. exact IH.
Qed.

End ScheduleFacts.

(** ** The schedule of a returned route *)

Module ScheduleSolved.

Import Routing VRPSolver.
Local Open Scope nat_scope.

Section Rows.

Variable format_address : Main.Client -> string.
Variable solution : Solution.
Variable clients_df : list Main.Client.
Variable config : Main.Config.
Variable distance_matrix : list (list Q).
Variable time_matrix : list (list Q).

Local Abbreviation row_of :=
  (ScheduleGenerator.schedule_row format_address solution clients_df config
     distance_matrix time_matrix).

Local Abbreviation rows_of :=
  (ScheduleGenerator.schedule_rows format_address solution clients_df config
     distance_matrix time_matrix).

Lemma rows_app : forall start l1 l2 i rows,
  rows_of start i (l1 ++ l2) = Some rows ->
  exists r1 r2,
    rows = r1 ++ r2 /\
    rows_of start i l1 = Some r1 /\
    rows_of start (i + List.length l1) l2 = Some r2.
Proof.
  intros start. induction l1 as [| s l1 IH]; intros l2 i rows H.
  - exists [], rows. rewrite Nat.add_0_r. repeat split. exact H.
  - simpl in H. destruct (row_of start i s) as [row |] eqn:E; [| discriminate].
    destruct (rows_of start (S i) (l1 ++ l2)) as [rest |] eqn:Er;
      [| discriminate].
    simpl in H. inversion H; subst rows. clear H.
    destruct (IH _ _ _ Er) as (r1 & r2 & -> & H1 & H2).
    exists (row :: r1), r2. simpl. rewrite E, H1. simpl.
    replace (i + S (List.length l1)) with (S i + List.length l1) by lia.
    repeat split. exact H2.
Qed.

(** The rows of a route that starts at the start and ends at the end of
    the route: the first row, the rows between, the last row. *)
Lemma split_rows : forall start m a first_index ls N rows,
  rows_of start 0 (map (stop_at m a) ((first_index :: ls) ++ [N])) = Some rows ->
  exists first middle last,
    rows = first :: middle ++ [last] /\
    row_of start 0 (stop_at m a first_index) = Some first /\
    rows_of start 1 (map (stop_at m a) ls) = Some middle /\
    row_of start (S (List.length ls)) (stop_at m a N) = Some last.
Proof.
  intros start m a first_index ls N rows H. simpl in H.
  destruct (row_of start 0 (stop_at m a first_index)) as [first |] eqn:E;
    [| discriminate].
  destruct (rows_of start 1 _) as [rest |] eqn:Er; [| discriminate].
  simpl in H. inversion H; subst rows. clear H.
  rewrite map_app in Er. apply rows_app in Er.
  destruct Er as (middle & tail & -> & Hm & Ht).
  rewrite length_map in Ht. simpl in Ht.
  destruct (row_of start (S (List.length ls)) (stop_at m a N)) as [last |] eqn:El;
    [| discriminate].
  simpl in Ht. inversion Ht; subst tail.
  exists first, middle, last. repeat split; assumption.
Qed.

(** The rows of stops at clients carry the identifiers of these clients. *)
Lemma client_rows : forall start m a mg_nodes d ls i rows,
  num_nodes (manager m) = mg_nodes ->
  (forall x, In x ls -> 0 < x < mg_nodes) ->
  rows_of start i (map (stop_at m a) ls) = Some rows ->
  map ScheduleGenerator.client_id rows
  = map (fun x => Main.client_id (nth (x - 1) clients_df d)) ls.
Proof.
  intros start m a mg_nodes d. induction ls as [| x ls IH]; intros i rows Hn Hb H.
  - simpl in H. inversion H. reflexivity.
  - simpl in H. destruct (row_of start i (stop_at m a x)) as [row |] eqn:E;
      [| discriminate].
    destruct (rows_of start (S i) _) as [rest |] eqn:Er; [| discriminate].
    simpl in H. inversion H; subst rows. clear H.
    simpl. f_equal.
    + assert (Hx : 0 < x < mg_nodes) by (apply Hb; now left).
      assert (Hloc : location_index (stop_at m a x) = x).
      { simpl. unfold IndexToNode. rewrite Hn.
        now rewrite (proj2 (Nat.ltb_lt x mg_nodes) (proj2 Hx)). }
      destruct (ScheduleFacts.row_kind _ _ _ _ _ _ _ _ _ _ E)
        as [(H0 & _) | [(H0 & _) | (_ & client & Hc & Hid & _)]];
        try (rewrite Hloc in H0; lia).
      rewrite Hloc in Hc. rewrite Hid.
      now rewrite (nth_error_nth _ _ d Hc).
    + apply (IH (S i)); [exact Hn | | exact Er].
      intros y Hy. apply Hb. now right.
Qed.

End Rows.

(** The indices of a route after the start, each lowered by one, are the
    positions of the client table. *)
Lemma lowered_indices : forall ls n,
  NoDup (0 :: ls) ->
  (forall j, j < S n <-> In j (0 :: ls)) ->
  Permutation (map (fun x => x - 1) ls) (seq 0 n).
Proof.
  intros ls n Hnd Hin.
  assert (Hpos : forall x, In x ls -> 0 < x < S n).
  { intros x Hx. split.
    - destruct x; [| lia]. apply NoDup_cons_iff in Hnd. tauto.
    - apply Hin. now right. }
  apply NoDup_Permutation.
  - apply NoDup_cons_iff in Hnd. destruct Hnd as [_ Hnd].
    clear Hin. induction ls as [| x ls IH]; [constructor |].
    apply NoDup_cons_iff in Hnd. destruct Hnd as [Hx Hnd].
    simpl. constructor.
    + intros Hc. apply in_map_iff in Hc. destruct Hc as (y & Ey & Hy).
      assert (0 < x < S n) by (apply Hpos; now left).
      assert (0 < y < S n) by (apply Hpos; now right).
      assert (y = x) by lia. subst y. contradiction.
    + apply IH; [exact Hnd |]. intros y Hy. apply Hpos. now right.
  - apply seq_NoDup.
  - intros j. rewrite in_seq, in_map_iff. split.
    + intros (x & <- & Hx). apply Hpos in Hx. lia.
    + intros Hj. exists (S j). split; [lia |].
      assert (Hs : In (S j) (0 :: ls)) by (apply Hin; lia).
      destruct Hs as [Hs | Hs]; [discriminate | exact Hs].
Qed.

(** The loop over the stops goes through when its body does for every
    stop. *)
Lemma rows_total :
  forall format_address solution clients_df config dm tm start stops i,
    (forall k stop, nth_error stops k = Some stop ->
       exists row,
         ScheduleGenerator.schedule_row format_address solution clients_df
           config dm tm start (i + k) stop = Some row) ->
    exists rows,
      ScheduleGenerator.schedule_rows format_address solution clients_df config
        dm tm start i stops = Some rows.
Proof.
  intros format_address solution clients_df config dm tm start.
  induction stops as [| stop stops IH]; intros i H.
  - now exists [].
  - destruct (H 0 stop eq_refl) as (row & Hrow). rewrite Nat.add_0_r in Hrow.
    destruct (IH (S i)) as (rows & Hrows).
    { intros k s Hk. destruct (H (S k) s Hk) as (r & Hr).
      exists r. replace (S i + k) with (i + S k) by lia. exact Hr. }
    exists (row :: rows). simpl. rewrite Hrow, Hrows. reflexivity.
Qed.

End ScheduleSolved.

(** ** The legs of a returned route *)

Module Legs.

Import Routing VRPSolver.
Local Open Scope nat_scope.

(** In a walk followed by the end of the route, what comes after an index
    is its successor. *)
Lemma chain_next : forall N next i l,
  Path.chain N next i l -> i <= N ->
  (forall j, j < N -> next j <= N) ->
  forall k x y,
    nth_error (l ++ [N]) k = Some x ->
    nth_error (l ++ [N]) (S k) = Some y ->
    x < N /\ y = next x.
Proof.
  intros N next i l H. induction H as [i Hi | i l Hi Hc IH];
    intros Hile Hdom k x y Hx Hy.
  - destruct k; simpl in Hy; [discriminate |]. destruct k; discriminate.
  - destruct k as [| k].
    + simpl in Hx. inversion Hx; subst x. split; [exact Hi |].
      simpl in Hy. inversion Hc as [j Hj | j l' Hj Hc']; subst.
      * simpl in Hy. inversion Hy. specialize (Hdom i Hi). lia.
      * simpl in Hy. now inversion Hy.
    + simpl in Hx, Hy. apply (IH (Hdom i Hi) Hdom k); assumption.
Qed.

(** Two stops that follow each other in a returned route: the cumulated
    distance grows by the entry of the distance matrix of the data model
    for the two locations. *)
Lemma consecutive_distance : forall search fuel data time_limit sol,
  sound search ->
  solve search fuel data time_limit = Returns (Some sol) ->
  forall k from to,
    nth_error (route sol) k = Some from ->
    nth_error (route sol) (S k) = Some to ->
    exists d,
      Py.getitem2 (distance_matrix data) (location_index from)
                  (location_index to) = Some d /\
      cumulative_distance to = (cumulative_distance from + d)%Z.
Proof.
  intros search fuel data time_limit sol Hsound Hsol k from to Hfrom Hto.
  destruct (Returned.described search fuel data time_limit sol Hsound Hsol)
    as (m & a & ls & clients & dep & H).
  cbv zeta in H.
  destruct H as (_ & Hmg & Hdep & _ & _ & Hok & Hd & _ & Hch & _ & _ & _ & ->).
  cbn [route] in Hfrom, Hto. rewrite nth_error_map in Hfrom, Hto.
  set (N := List.length (distance_matrix data)) in *.
  destruct (nth_error ((depot data :: ls) ++ [N]) k) as [x |] eqn:Ex;
    [| discriminate].
  destruct (nth_error ((depot data :: ls) ++ [N]) (S k)) as [y |] eqn:Ey;
    [| discriminate].
  simpl in Hfrom, Hto. inversion Hfrom; subst from. inversion Hto; subst to.
  destruct (chain_next _ _ _ _ Hch (Nat.lt_le_incl _ _ Hdep)
              (fun j Hj => proj1 (Facts.nexts_dom _ _ Hok j Hj)) k x y Ex Ey)
    as [Hx ->].
  destruct (Facts.cumul_arc _ _ _ _ Hd x Hx) as (d & Ed & Hb).
  cbn [transit distance_dimension slack_max] in Ed, Hb.
  exists d. split.
  - cbn [location_index stop_at]. rewrite Hmg. exact Ed.
  - cbn [cumulative_distance stop_at]. lia.
Qed.

(** The same for the arrival times: they grow by the travel time of the
    data model, the service time at the first of the two locations, and a
    waiting time of at most 60. *)
Lemma consecutive_time : forall search fuel data time_limit sol,
  sound search ->
  solve search fuel data time_limit = Returns (Some sol) ->
  forall k from to,
    nth_error (route sol) k = Some from ->
    nth_error (route sol) (S k) = Some to ->
    exists travel service,
      Py.getitem2 (time_matrix data) (location_index from) (location_index to)
        = Some travel /\
      nth_error (service_times data) (location_index from) = Some service /\
      (0 <= arrival_time to - arrival_time from - (travel + service) <= 60)%Z.
Proof.
  intros search fuel data time_limit sol Hsound Hsol k from to Hfrom Hto.
  destruct (Returned.described search fuel data time_limit sol Hsound Hsol)
    as (m & a & ls & clients & dep & H).
  cbv zeta in H.
  destruct H as (_ & Hmg & Hdep & _ & _ & Hok & _ & Ht & Hch & _ & _ & _ & ->).
  cbn [route] in Hfrom, Hto. rewrite nth_error_map in Hfrom, Hto.
  set (N := List.length (distance_matrix data)) in *.
  destruct (nth_error ((depot data :: ls) ++ [N]) k) as [x |] eqn:Ex;
    [| discriminate].
  destruct (nth_error ((depot data :: ls) ++ [N]) (S k)) as [y |] eqn:Ey;
    [| discriminate].
  simpl in Hfrom, Hto. inversion Hfrom; subst from. inversion Hto; subst to.
  destruct (chain_next _ _ _ _ Hch (Nat.lt_le_incl _ _ Hdep)
              (fun j Hj => proj1 (Facts.nexts_dom _ _ Hok j Hj)) k x y Ex Ey)
    as [Hx ->].
  destruct (Facts.cumul_arc _ _ _ _ Ht x Hx) as (t & Et & Hb).
  cbn [transit time_dimension slack_max] in Et, Hb.
  rewrite Along.time_callback_arc_time in Et. unfold Recompute.arc_time in Et.
  destruct (Py.getitem2 (time_matrix data) _ _) as [travel |] eqn:Etr;
    [| discriminate].
  destruct (nth_error (service_times data) _) as [service |] eqn:Ese;
    [| discriminate].
  inversion Et; subst t.
  exists travel, service. cbn [location_index arrival_time stop_at].
  rewrite Hmg. repeat split; try assumption; lia.
Qed.

End Legs.

(** ** Metres and kilometres *)

Module Metres.

Import Routing VRPSolver Lqa.
Local Open Scope nat_scope.

Lemma getitem2_map : forall (A B : Type) (f : A -> B) (m : list (list A)) i j,
  Py.getitem2 (map (map f) m) i j = option_map f (Py.getitem2 m i j).
Proof.
  intros A B f m i j. unfold Py.getitem2. rewrite nth_error_map.
  destruct (nth_error m i) as [row |]; [| reflexivity].
  simpl. now rewrite nth_error_map.
Qed.

Lemma int_gt : forall x : Q, (0 <= x)%Q -> (x < inject_Z (Py.int x) + 1)%Q.
Proof.
  intros [n d] H. unfold Py.int, Qle, Qlt, Qplus, inject_Z in *. simpl in *.
  pose proof (Z.mul_succ_quot_gt n (Z.pos d) ltac:(lia) ltac:(lia)) as G.
  rewrite Z.mul_1_r in *. nia.
Qed.

(** A distance in kilometres, turned into metres and rounded toward zero,
    loses less than a metre. *)
Lemma within_a_metre : forall q : Q, (0 <= q)%Q ->
  (inject_Z (Py.int (q * 1000)) / 1000 <= q /\
   q < inject_Z (Py.int (q * 1000)) / 1000 + (1 # 1000))%Q.
Proof.
  intros q Hq.
  assert (H0 : (0 <= q * 1000)%Q) by lra.
  pose proof (Trunc.int_le _ H0) as Hle.
  pose proof (int_gt _ H0) as Hgt.
  set (D := inject_Z (Py.int (q * 1000))) in *.
  assert (E : (D / 1000 == D * (1 # 1000))%Q) by field.
  rewrite E. split; lra.
Qed.

Lemma step_in_km : forall a d : Z,
  (inject_Z (a + d) / 1000 - inject_Z a / 1000 == inject_Z d / 1000)%Q.
Proof.
  intros a d. rewrite inject_Z_plus. field.
Qed.

(** The cumulated distance shown on a row of the schedule of a returned
    route. *)
Lemma row_cumulative :
  forall format_address search fuel data time_limit sol clients config dm tm
         rows,
    sound search ->
    solve search fuel data time_limit = Returns (Some sol) ->
    depot data = 0 ->
    ScheduleGenerator.generate_schedule format_address sol clients config dm tm
      = Some rows ->
    List.length rows = List.length (route sol) /\
    forall k stop, nth_error (route sol) k = Some stop ->
      exists row,
        nth_error rows k = Some row /\
        (ScheduleGenerator.cumulative_distance_km row
           == inject_Z (cumulative_distance stop) / 1000)%Q /\
        (0 < k ->
         exists previous distance travel_time,
           nth_error (route sol) (k - 1) = Some previous /\
           Py.getitem2 dm (location_index previous) (location_index stop)
             = Some distance /\
           Py.getitem2 tm (location_index previous) (location_index stop)
             = Some travel_time /\
           ScheduleGenerator.distance_from_previous_km row = distance /\
           ScheduleGenerator.travel_time_from_previous_min row
             = Py.int travel_time).
Proof.
  intros format_address search fuel data time_limit sol clients config dm tm
         rows Hsound Hsol Hdep Hgen.
  destruct (Returned.described search fuel data time_limit sol Hsound Hsol)
    as (m & a & ls & ranges & dep & H).
  cbv zeta in H. rewrite Hdep in H.
  destruct H as (_ & _ & _ & _ & _ & _ & Hd & _ & _ & _ & _ & _ & Esol).
  unfold ScheduleGenerator.generate_schedule in Hgen.
  destruct (Clock.strptime_HM (Main.working_start config)) as [hm |];
    [| discriminate].
  destruct (ScheduleFacts.rows_nth _ _ _ _ _ _ _ _ _ _ Hgen) as [Hl Hnth].
  pose proof (Facts.cumul_start _ _ _ _ Hd eq_refl) as Hzero.
  change (Start (manager_of data)) with (depot data) in Hzero.
  rewrite Hdep in Hzero.
  split; [exact Hl |].
  intros k stop Hs. destruct (Hnth k stop Hs) as (row & Hr & Hmk).
  simpl in Hmk. exists row. split; [exact Hr |]. split.
  - destruct (ScheduleFacts.row_kind _ _ _ _ _ _ _ _ _ _ Hmk)
      as [(_ & Hk0 & _ & _ & Hc) | [(_ & _ & _ & _ & Hc) | (_ & c & _ & _ & _ & _ & Hc)]];
      try (rewrite Hc; reflexivity).
    subst k. rewrite Hc.
    rewrite Esol in Hs. simpl in Hs. inversion Hs; subst stop.
    simpl. rewrite Hzero. reflexivity.
  - intros Hk. exact (ScheduleFacts.row_leg _ _ _ _ _ _ _ _ _ _ Hmk Hk).
Qed.

End Metres.

(** ** The lines of the Gantt chart *)

Module GanttFacts.

Import VRPSolver.
Local Open Scope nat_scope.

(** A row made by the schedule is read back by the chart. *)
Lemma gantt_line_made :
  forall format_address solution clients_df config dm tm start i stop row
         working_start,
    ScheduleGenerator.schedule_row format_address solution clients_df config
      dm tm start i stop = Some row ->
    exists line,
      ScheduleGenerator.sequence row = i + 1 /\
      RouteVisualizer.shown_time line
        = Clock.strftime_HM (start + arrival_time stop) /\
      RouteVisualizer.dashes line
        = Z.to_nat (((start + arrival_time stop) mod 1440 - working_start) / 10) /\
      RouteVisualizer.gantt_line working_start row =
        if negb (String.eqb (ScheduleGenerator.client_id row) "DEPOT")
           || (ScheduleGenerator.sequence row =? 1)
        then Some (Some line) else Some None.
Proof.
  intros format_address solution clients_df config dm tm start i stop row
         working_start H.
  destruct (ScheduleFacts.row_common _ _ _ _ _ _ _ _ _ _ H)
    as (Hseq & arrival & Hadd & Harr).
  assert (Ea : arrival = (start + arrival_time stop)%Z).
  { unfold Clock.add_minutes in Hadd.
    destruct (_ && _)%bool; [| discriminate]. now inversion Hadd. }
  subst arrival.
  destruct (ClockFacts.round_trip (start + arrival_time stop))
    as (h & mi & Hparse & Hval).
  unfold RouteVisualizer.gantt_line. rewrite Harr, Hparse. cbv zeta.
  rewrite ClockFacts.int_minutes, Hval.
  destruct (String.eqb (ScheduleGenerator.client_id row) "DEPOT").
  - eexists (RouteVisualizer.mkLine _ _ _ _). cbn.
    split; [exact Hseq |]. split; [reflexivity |]. split; reflexivity.
  - eexists (RouteVisualizer.mkLine _ _ _ _). cbn.
    split; [exact Hseq |]. split; [reflexivity |]. split; reflexivity.
Qed.

(** When the first [n] rows are drawn and the others are passed over, the
    chart has [n] lines, those of the first [n] rows. *)
Lemma gantt_prefix : forall working_start rows n,
  (forall k row, nth_error rows k = Some row ->
     if k <? n
     then exists line,
            RouteVisualizer.gantt_line working_start row = Some (Some line)
     else RouteVisualizer.gantt_line working_start row = Some None) ->
  n <= List.length rows ->
  exists lines,
    RouteVisualizer.gantt_lines working_start rows = Some lines /\
    List.length lines = n /\
    forall k row, k < n -> nth_error rows k = Some row ->
      exists line,
        nth_error lines k = Some line /\
        RouteVisualizer.gantt_line working_start row = Some (Some line).
Proof.
  intros working_start. induction rows as [| r rows IH]; intros n H Hn.
  - simpl in Hn. assert (n = 0) by lia. subst n. exists [].
    repeat split. intros k row Hk. lia.
  - destruct n as [| n].
    + pose proof (H 0 r eq_refl) as Hr. simpl in Hr.
      destruct (IH 0) as (lines & Hl & Hlen & _); [| lia |].
      * intros k row Hk. exact (H (S k) row Hk).
      * exists lines. simpl. rewrite Hr, Hl.
        repeat split; [exact Hlen |]. intros k row Hk. lia.
    + pose proof (H 0 r eq_refl) as Hr. simpl in Hr. destruct Hr as (l & Hr).
      destruct (IH n) as (lines & Hl & Hlen & Hnth).
      * intros k row Hk. exact (H (S k) row Hk).
      * simpl in Hn. lia.
      * exists (l :: lines). simpl. rewrite Hr, Hl.
        split; [reflexivity |]. split; [simpl; now rewrite Hlen |].
        intros k row Hk Hrow. destruct k as [| k].
        -- simpl in Hrow. inversion Hrow; subst row.
           exists l. split; [reflexivity | exact Hr].
        -- simpl in Hrow. apply (Hnth k row); [lia | exact Hrow].
Qed.

End GanttFacts.

(** ** Further properties of the solver *)

Module Extra.

Import Routing VRPSolver Recompute Totals Hopeless DistanceMatrixCalculator.
Local Open Scope nat_scope.








(** X4.  With two locations or more, no stop of a returned route is
    followed by a stop at the same location: the diagonals of the two
    matrices take no part in the route. *)
Theorem consecutive_stops_differ :
  forall search fuel data time_limit sol,
    sound search ->
    2 <= List.length (distance_matrix data) ->
    solve search fuel data time_limit = Returns (Some sol) ->
    forall k from to,
      nth_error (map location_index (route sol)) k = Some from ->
      nth_error (map location_index (route sol)) (S k) = Some to ->
      from <> to.
Proof.
  intros search fuel data time_limit sol Hsound H2 Hsol k from to Hfrom Hto.
  destruct (Returned.described search fuel data time_limit sol Hsound Hsol)
    as (m & a & ls & clients & dep & H).
  cbv zeta in H.
  destruct H as (_ & Hmg & _ & _ & _ & _ & _ & _ & _ & Hlen & Hnd & Hin & ->).
  cbn [route] in Hfrom, Hto.
  rewrite (Solved.route_locations m a data (depot data :: ls) Hmg) in Hfrom, Hto
    by (intros j Hj; now apply Hin).
  set (N := List.length (distance_matrix data)) in *.
  set (idx := depot data :: ls) in *.
  assert (Hk : S k <= N).
  { assert (Hsome : nth_error (idx ++ [depot data]) (S k) <> None)
      by (rewrite Hto; discriminate).
    apply nth_error_Some in Hsome.
    rewrite length_app, Hlen in Hsome. simpl in Hsome. lia. }
  rewrite nth_error_app1 in Hfrom by lia.
  destruct (Nat.eq_dec (S k) N) as [E | E].
  - rewrite nth_error_app2, Hlen, E, Nat.sub_diag in Hto by lia.
    simpl in Hto. inversion Hto; subst to.
    assert (H0 : nth_error idx 0 = Some (depot data)) by reflexivity.
    intros Eq. subst from.
    rewrite (NoDup_nth_error idx) in Hnd.
    specialize (Hnd k 0 ltac:(lia) ltac:(congruence)). lia.
  - rewrite nth_error_app1 in Hto by lia.
    intros Eq. subst from.
    rewrite (NoDup_nth_error idx) in Hnd.
    specialize (Hnd k (S k) ltac:(lia) ltac:(congruence)). lia.
Qed.

Lemma consecutive_stops_differ_witness :
  exists sol,
    sound (proposing Day.plan) /\
    2 <= List.length (distance_matrix Day.data) /\
    solve (proposing Day.plan) 3 Day.data 30 = Returns (Some sol) /\
    forall k from to,
      nth_error (map location_index (route sol)) k = Some from ->
      nth_error (map location_index (route sol)) (S k) = Some to ->
      from <> to.
Proof.
  eexists.
  split; [apply Solved.proposing_sound |].
  split; [simpl; lia |].
  split; [vm_compute; reflexivity |].
  apply (consecutive_stops_differ (proposing Day.plan) 3 Day.data 30).
  - apply Solved.proposing_sound.
  - simpl. lia.
  - vm_compute. reflexivity.
Defined.






(** X8.  What [strftime('%H:%M')] writes, [strptime] with the same format
    reads back: for every datetime, the time of day it shows. *)
Theorem clock_round_trip :
  forall t : Z,
    exists h m,
      Clock.strptime_HM (Clock.strftime_HM t) = Some (h, m) /\
      Clock.datetime_of (h, m) = (t mod 1440)%Z.
Proof.
  exact ClockFacts.round_trip.
Qed.

(** X9.  A string that [strptime] accepts for '%H:%M' holds an hour below
    24 and a minute below 60, and writing that time and reading it again
    gives the same time, also when the string was not padded with zeros. *)
Theorem strptime_accepts_times_of_day :
  forall s h m,
    Clock.strptime_HM s = Some (h, m) ->
    h < 24 /\ m < 60 /\
    Clock.strptime_HM (Clock.strftime_HM (Clock.datetime_of (h, m)))
      = Some (h, m).
Proof.
  intros s h m H. destruct (ClockFacts.strptime_bound _ _ _ H) as [Hh Hm].
  split; [exact Hh |]. split; [exact Hm |].
  unfold Clock.strftime_HM, Clock.datetime_of. cbv zeta. cbn [fst snd].
  assert (E : Z.to_nat ((60 * Z.of_nat h + Z.of_nat m) mod 1440) = 60 * h + m).
  { rewrite Z.mod_small by lia. lia. }
  rewrite E.
  rewrite ClockFacts.round_trip_minutes by lia.
  f_equal. f_equal.
  - rewrite Nat.mul_comm, Nat.div_add_l by lia. rewrite Nat.div_small by lia. lia.
  - rewrite Nat.add_comm, Nat.mul_comm, Nat.Div0.mod_add. now apply Nat.mod_small.
Qed.

Lemma strptime_accepts_times_of_day_witness :
  Clock.strptime_HM "9:5" = Some (9, 5) /\
  9 < 24 /\ 5 < 60 /\
  Clock.strftime_HM (Clock.datetime_of (9, 5)) = "09:05"%string /\
  Clock.strptime_HM (Clock.strftime_HM (Clock.datetime_of (9, 5))) = Some (9, 5).
Proof.
  split; [reflexivity |].
  pose proof (strptime_accepts_times_of_day "9:5" 9 5 eq_refl) as (H1 & H2 & H3).
  split; [exact H1 |]. split; [exact H2 |]. split; [reflexivity | exact H3].
Defined.

(** X10.  [convert_time_to_minutes] gives the minutes from the base time to
    the time, more than minus a day and less than a day; swapping the two
    times changes the sign, and the minutes of any third time from the two
    differ by exactly that amount. *)
Theorem convert_time_to_minutes_difference :
  forall time_str base_time_str d,
    Clock.convert_time_to_minutes time_str base_time_str = Some d ->
    (-1440 < d < 1440)%Z /\
    Clock.convert_time_to_minutes base_time_str time_str = Some (- d)%Z /\
    Clock.convert_time_to_minutes time_str time_str = Some 0%Z /\
    forall other k,
      Clock.convert_time_to_minutes other base_time_str = Some k ->
      Clock.convert_time_to_minutes other time_str = Some (k - d)%Z.
Proof.
  intros time_str base_time_str d H.
  apply ClockFacts.convert_value in H. destruct H as (t & b & Ht & Hb & ->).
  pose proof (ClockFacts.datetime_of_bound _ _ Ht).
  pose proof (ClockFacts.datetime_of_bound _ _ Hb).
  split; [lia |]. split; [| split].
  - apply ClockFacts.convert_value. exists b, t. repeat split; try assumption. lia.
  - apply ClockFacts.convert_value. exists t, t. repeat split; try assumption. lia.
  - intros other k Hk. apply ClockFacts.convert_value in Hk.
    destruct Hk as (o & b' & Ho & Hb' & ->).
    assert (b' = b) by congruence. subst b'.
    apply ClockFacts.convert_value. exists o, t. repeat split; try assumption. lia.
Qed.

Lemma convert_time_to_minutes_difference_witness :
  Clock.convert_time_to_minutes "17:30" "09:00" = Some 510%Z /\
  (-1440 < 510 < 1440)%Z /\
  Clock.convert_time_to_minutes "09:00" "17:30" = Some (- 510)%Z /\
  Clock.convert_time_to_minutes "17:30" "17:30" = Some 0%Z /\
  forall other k,
    Clock.convert_time_to_minutes other "09:00" = Some k ->
    Clock.convert_time_to_minutes other "17:30" = Some (k - 510)%Z.
Proof.
  split; [reflexivity |].
  apply (convert_time_to_minutes_difference "17:30" "09:00" 510%Z).
  reflexivity.
Defined.



(** X12.  The main script gets to the solver exactly when every time it
    reads is a time of day: the preparation fails if and only if the start
    or the end of the working hours, or the start or the end of the window
    of some client, is not accepted by [strptime]. *)
Theorem main_fails_on_unreadable_times :
  forall config clients dm tm,
    Main.prepare config clients dm tm = None <->
    (Clock.strptime_HM (Main.working_start config) = None \/
     Clock.strptime_HM (Main.working_end config) = None \/
     exists client,
       In client clients /\
       (Clock.strptime_HM (Main.time_window_start client) = None \/
        Clock.strptime_HM (Main.time_window_end client) = None)).
Proof.
  intros config clients dm tm.
  assert (Hconv : forall s base,
            Clock.convert_time_to_minutes s base = None <->
            Clock.strptime_HM base = None \/ Clock.strptime_HM s = None).
  { intros s base. unfold Clock.convert_time_to_minutes.
    destruct (Clock.strptime_HM base); destruct (Clock.strptime_HM s);
      cbv zeta; split; intros H; try discriminate; try reflexivity;
      try (now left); try (now right); destruct H; discriminate. }
  unfold Main.prepare, Main.windows_loop. cbv zeta.
  destruct (fold_left _ clients _) as [[tw st] |] eqn:E.
  - pose proof (MainFacts.loop_reads_all _ _ _ _ _ _ E) as Hok.
    destruct (Clock.convert_time_to_minutes (Main.working_end config)
                (Main.working_start config)) as [work_end |] eqn:Ew.
    + split; [discriminate |].
      intros [H | [H | (client & Hin & H)]].
      * assert (Hn : Clock.convert_time_to_minutes (Main.working_end config)
                       (Main.working_start config) = None)
          by (apply Hconv; now left).
        congruence.
      * assert (Hn : Clock.convert_time_to_minutes (Main.working_end config)
                       (Main.working_start config) = None)
          by (apply Hconv; now right).
        congruence.
      * destruct (Hok client Hin) as [H1 H2].
        exfalso. destruct H as [H | H]; [apply H1 | apply H2]; apply Hconv;
          now right.
    + split; [| reflexivity]. intros _.
      apply Hconv in Ew. destruct Ew as [Ew | Ew]; [now left | right; now left].
  - split; [| reflexivity]. intros _.
    apply MainFacts.loop_fails in E. destruct E as (client & Hin & H).
    destruct H as [H | H]; apply Hconv in H; destruct H as [H | H];
      try (now left);
      right; right; exists client; split; try exact Hin;
      [now left | now right].
Qed.

Lemma main_fails_on_unreadable_times_witness :
  Clock.strptime_HM "25:00" = None /\
  Main.prepare
    {| Main.rep_name := Main.rep_name Morning.config;
       Main.start_name := Main.start_name Morning.config;
       Main.start_latitude := 0; Main.start_longitude := 0;
       Main.working_start := "09:00"; Main.working_end := "25:00";
       Main.max_distance_km := 100; Main.max_travel_hours := 6;
       Main.osrm_server := Main.osrm_server Morning.config;
       Main.time_limit_seconds := 30 |}
    Morning.clients_df Morning.distance_km Morning.duration_min = None.
Proof.
  split; [reflexivity |].
  apply (proj2 (main_fails_on_unreadable_times _ _ _ _)).
  right. left. reflexivity.
Defined.

(** X13.  In a route that the main script obtains, every stop arrives
    within the time window of its location, the closing return to the depot
    included: the script gives the depot the window from 0 to the end of
    the working day and the solver the same end as time budget. *)
Theorem main_route_keeps_every_window :
  forall search fuel config clients dm tm data sol,
    sound search ->
    Main.prepare config clients dm tm = Some data ->
    Main.main_solve search fuel config clients dm tm = Returns (Some sol) ->
    forall stop, In stop (route sol) ->
      forall earliest latest,
        nth_error (time_windows data) (location_index stop)
          = Some (earliest, latest) ->
        (earliest <= arrival_time stop <= latest)%Z.
Proof.
  intros search fuel config clients dm tm data sol Hsound Hprep Hsol stop Hstop
         earliest latest Hw.
  unfold Main.main_solve in Hsol. rewrite Hprep in Hsol.
  destruct (Returned.arrivals search fuel data _ sol Hsound Hsol stop Hstop)
    as [Hcap [Hwin | Hdepot]].
  - now apply Hwin.
  - apply MainFacts.prepare_some in Hprep.
    destruct Hprep as (tail & work_end & _ & _ & ->).
    rewrite Hdepot in Hw.
    cbn [depot time_windows create_data_model nth_error] in Hw.
    cbn [vehicle_time_capacity create_data_model] in Hcap.
    inversion Hw; subst. exact Hcap.
Qed.

Lemma main_route_keeps_every_window_witness :
  exists data sol,
    sound (proposing Morning.plan) /\
    Main.prepare Morning.config Morning.clients_df Morning.distance_km
                 Morning.duration_min = Some data /\
    Main.main_solve (proposing Morning.plan) 3 Morning.config Morning.clients_df
                    Morning.distance_km Morning.duration_min
      = Returns (Some sol) /\
    forall stop, In stop (route sol) ->
      forall earliest latest,
        nth_error (time_windows data) (location_index stop)
          = Some (earliest, latest) ->
        (earliest <= arrival_time stop <= latest)%Z.
Proof.
  do 2 eexists.
  split; [apply Solved.proposing_sound |].
  split; [vm_compute; reflexivity |].
  split; [vm_compute; reflexivity |].
  apply (main_route_keeps_every_window (proposing Morning.plan) 3 Morning.config
           Morning.clients_df Morning.distance_km Morning.duration_min).
  - apply Solved.proposing_sound.
  - vm_compute. reflexivity.
  - vm_compute. reflexivity.
Defined.

(** X14.  The schedule of a returned route, when the client table has one
    client per location after the depot, begins with the row 'Depart
    Office', ends with the row 'Return to Office', and holds between them
    exactly one meeting for every client of the table; the rows are
    numbered from 1 on. *)
Theorem schedule_has_one_meeting_per_client :
  forall format_address search fuel data time_limit sol clients config dm tm rows,
    sound search ->
    solve search fuel data time_limit = Returns (Some sol) ->
    depot data = 0 ->
    List.length (distance_matrix data) = S (List.length clients) ->
    ScheduleGenerator.generate_schedule format_address sol clients config dm tm
      = Some rows ->
    exists first middle last,
      rows = first :: middle ++ [last] /\
      ScheduleGenerator.activity first = "Depart Office"%string /\
      ScheduleGenerator.activity last = "Return to Office"%string /\
      Permutation (map ScheduleGenerator.client_id middle)
                  (map Main.client_id clients) /\
      forall k row, nth_error rows k = Some row ->
        ScheduleGenerator.sequence row = k + 1.
Proof.
  intros format_address search fuel data time_limit sol clients config dm tm rows
         Hsound Hsol Hdep HN Hgen.
  destruct (Returned.described search fuel data time_limit sol Hsound Hsol)
    as (m & a & ls & ranges & dep & H).
  cbv zeta in H. rewrite Hdep, HN in H.
  destruct H as (_ & Hmg & _ & _ & _ & _ & _ & _ & _ & Hlen & Hnd & Hin & Esol).
  unfold ScheduleGenerator.generate_schedule in Hgen.
  destruct (Clock.strptime_HM (Main.working_start config)) as [hm |];
    [| discriminate].
  set (start := Clock.datetime_of hm) in *.
  assert (Hroute : route sol
                   = map (stop_at m a) ((0 :: ls) ++ [S (List.length clients)]))
    by (rewrite Esol; reflexivity).
  assert (Hnodes : num_nodes (manager m) = S (List.length clients))
    by (rewrite Hmg; exact HN).
  assert (Hstart : start_node (manager m) = 0) by (rewrite Hmg; exact Hdep).
  pose proof Hgen as Hrows. rewrite Hroute in Hrows.
  apply ScheduleSolved.split_rows in Hrows.
  destruct Hrows as (first & middle & last & -> & Hf & Hm & Hl).
  exists first, middle, last. split; [reflexivity |].
  split; [| split; [| split]].
  - destruct (ScheduleFacts.row_kind _ _ _ _ _ _ _ _ _ _ Hf)
      as [(_ & _ & _ & Ha & _) | [(_ & Hi & _) | (Hloc & _)]].
    + exact Ha.
    + contradiction.
    + exfalso. apply Hloc. simpl. unfold IndexToNode. rewrite Hnodes.
      reflexivity.
  - destruct (ScheduleFacts.row_kind _ _ _ _ _ _ _ _ _ _ Hl)
      as [(_ & Hi & _) | [(_ & _ & _ & Ha & _) | (Hloc & _)]].
    + discriminate.
    + exact Ha.
    + exfalso. apply Hloc. simpl. unfold IndexToNode. rewrite Hnodes, Hstart.
      now rewrite Nat.ltb_irrefl.
  - set (d := Main.mkClient EmptyString EmptyString 0 0 EmptyString EmptyString
                            0 EmptyString).
    rewrite (ScheduleSolved.client_rows format_address sol clients config dm tm
               start m a
               (S (List.length clients)) d ls 1 middle Hnodes); [| | exact Hm].
    + rewrite <- (ScheduleFacts.map_field_nth_seq _ _ Main.client_id clients d).
      rewrite <- (map_map (fun x => x - 1)
                          (fun j => Main.client_id (nth j clients d))).
      apply Permutation_map. now apply ScheduleSolved.lowered_indices.
    + intros x Hx. split.
      * destruct x; [| lia]. apply NoDup_cons_iff in Hnd. tauto.
      * apply Hin. now right.
  - intros k row Hk.
    destruct (ScheduleFacts.rows_nth _ _ _ _ _ _ _ _ _ _ Hgen) as [Hl' Hnth].
    destruct (nth_error (route sol) k) as [stop |] eqn:Es.
    + destruct (Hnth k stop Es) as (row' & Hr' & Hrow).
      assert (row' = row) by congruence. subst row'.
      now destruct (ScheduleFacts.row_common _ _ _ _ _ _ _ _ _ _ Hrow).
    + apply nth_error_None in Es. rewrite <- Hl' in Es.
      assert (nth_error (first :: middle ++ [last]) k <> None) by congruence.
      apply nth_error_Some in H. lia.
Qed.

Lemma schedule_has_one_meeting_per_client_witness :
  exists rows,
    sound (proposing Morning.plan) /\
    solve (proposing Morning.plan) 3 Morning.data 30
      = Returns (Some Morning.solution) /\
    depot Morning.data = 0 /\
    List.length (distance_matrix Morning.data)
      = S (List.length Morning.clients_df) /\
    ScheduleGenerator.generate_schedule Morning.address Morning.solution
      Morning.clients_df Morning.config Morning.distance_km Morning.duration_min
      = Some rows /\
    exists first middle last,
      rows = first :: middle ++ [last] /\
      ScheduleGenerator.activity first = "Depart Office"%string /\
      ScheduleGenerator.activity last = "Return to Office"%string /\
      Permutation (map ScheduleGenerator.client_id middle)
                  (map Main.client_id Morning.clients_df) /\
      forall k row, nth_error rows k = Some row ->
        ScheduleGenerator.sequence row = k + 1.
Proof.
  eexists.
  split; [apply Solved.proposing_sound |].
  split; [vm_compute; reflexivity |].
  split; [reflexivity |].
  split; [reflexivity |].
  split; [vm_compute; reflexivity |].
  apply (schedule_has_one_meeting_per_client Morning.address
           (proposing Morning.plan) 3 Morning.data 30 Morning.solution
           Morning.clients_df Morning.config Morning.distance_km
           Morning.duration_min).
  - apply Solved.proposing_sound.
  - vm_compute. reflexivity.
  - reflexivity.
  - reflexivity.
  - vm_compute. reflexivity.
Defined.

(** X15.  Every row of the schedule of a returned route shows what the
    solver computed for its stop: the arrival is the start of the working
    hours plus the arrival time of the stop, written as a time of day, and
    the cumulated distance is that of the stop divided by 1000, the zero
    written on the first row included.  So the last row shows the total
    distance of the solution. *)
Theorem schedule_shows_solver_values :
  forall format_address search fuel data time_limit sol clients config dm tm
         hm rows,
    sound search ->
    solve search fuel data time_limit = Returns (Some sol) ->
    depot data = 0 ->
    Clock.strptime_HM (Main.working_start config) = Some hm ->
    ScheduleGenerator.generate_schedule format_address sol clients config dm tm
      = Some rows ->
    (forall k row stop,
       nth_error rows k = Some row ->
       nth_error (route sol) k = Some stop ->
       ScheduleGenerator.arrival_time row
         = Clock.strftime_HM (Clock.datetime_of hm + arrival_time stop) /\
       (ScheduleGenerator.cumulative_distance_km row
          == inject_Z (cumulative_distance stop) / 1000)%Q) /\
    exists last,
      nth_error rows (List.length (distance_matrix data)) = Some last /\
      (ScheduleGenerator.cumulative_distance_km last == total_distance_km sol)%Q.
Proof.
  intros format_address search fuel data time_limit sol clients config dm tm
         hm rows Hsound Hsol Hdep Hhm Hgen.
  destruct (Returned.described search fuel data time_limit sol Hsound Hsol)
    as (m & a & ls & ranges & dep & H).
  cbv zeta in H. rewrite Hdep in H.
  destruct H as (_ & Hmg & HdepN & _ & _ & _ & Hd & _ & _ & Hlen & _ & _ & Esol).
  set (N := List.length (distance_matrix data)) in *.
  unfold ScheduleGenerator.generate_schedule in Hgen. rewrite Hhm in Hgen.
  destruct (ScheduleFacts.rows_nth _ _ _ _ _ _ _ _ _ _ Hgen) as [Hl Hnth].
  pose proof (Facts.cumul_start _ _ _ _ Hd eq_refl) as Hzero.
  change (Start (manager_of data)) with (depot data) in Hzero.
  rewrite Hdep in Hzero.
  assert (Hrow : forall k row stop,
            nth_error rows k = Some row ->
            nth_error (route sol) k = Some stop ->
            ScheduleGenerator.arrival_time row
              = Clock.strftime_HM (Clock.datetime_of hm + arrival_time stop) /\
            (ScheduleGenerator.cumulative_distance_km row
               == inject_Z (cumulative_distance stop) / 1000)%Q).
  { intros k row stop Hk Hs.
    destruct (Hnth k stop Hs) as (row' & Hr' & Hmk).
    assert (row' = row) by congruence. subst row'. simpl in Hmk.
    destruct (ScheduleFacts.row_common _ _ _ _ _ _ _ _ _ _ Hmk)
      as (_ & arrival & Hadd & Harr).
    split.
    - rewrite Harr. unfold Clock.add_minutes in Hadd.
      destruct (_ && _)%bool; [| discriminate]. inversion Hadd. reflexivity.
    - destruct (ScheduleFacts.row_kind _ _ _ _ _ _ _ _ _ _ Hmk)
        as [(_ & Hk0 & _ & _ & Hc) | [(_ & _ & _ & _ & Hc) | (_ & c & _ & _ & _ & _ & Hc)]];
        try (rewrite Hc; reflexivity).
      subst k. rewrite Hc.
      rewrite Esol in Hs. simpl in Hs. inversion Hs; subst stop.
      simpl. rewrite Hzero. reflexivity. }
  split; [exact Hrow |].
  assert (Hlast : nth_error (route sol) N = Some (stop_at m a N)).
  { rewrite Esol. cbn [route]. rewrite map_app.
    rewrite nth_error_app2 by (rewrite length_map, Hlen; lia).
    rewrite length_map, Hlen, Nat.sub_diag. reflexivity. }
  destruct (Hnth N _ Hlast) as (last & Hr & _).
  exists last. split; [exact Hr |].
  destruct (Hrow N last _ Hr Hlast) as [_ Hc].
  rewrite Hc, Esol. reflexivity.
Qed.

Lemma schedule_shows_solver_values_witness :
  exists rows,
    sound (proposing Morning.plan) /\
    solve (proposing Morning.plan) 3 Morning.data 30
      = Returns (Some Morning.solution) /\
    depot Morning.data = 0 /\
    Clock.strptime_HM (Main.working_start Morning.config) = Some (9, 0) /\
    ScheduleGenerator.generate_schedule Morning.address Morning.solution
      Morning.clients_df Morning.config Morning.distance_km Morning.duration_min
      = Some rows /\
    (forall k row stop,
       nth_error rows k = Some row ->
       nth_error (route Morning.solution) k = Some stop ->
       ScheduleGenerator.arrival_time row
         = Clock.strftime_HM (Clock.datetime_of (9, 0) + arrival_time stop) /\
       (ScheduleGenerator.cumulative_distance_km row
          == inject_Z (cumulative_distance stop) / 1000)%Q) /\
    exists last,
      nth_error rows (List.length (distance_matrix Morning.data)) = Some last /\
      (ScheduleGenerator.cumulative_distance_km last
         == total_distance_km Morning.solution)%Q.
Proof.
  eexists.
  split; [apply Solved.proposing_sound |].
  split; [vm_compute; reflexivity |].
  split; [reflexivity |].
  split; [reflexivity |].
  split; [vm_compute; reflexivity |].
  apply (schedule_shows_solver_values Morning.address (proposing Morning.plan) 3
           Morning.data 30 Morning.solution Morning.clients_df Morning.config
           Morning.distance_km Morning.duration_min (9, 0)).
  - apply Solved.proposing_sound.
  - vm_compute. reflexivity.
  - reflexivity.
  - reflexivity.
  - vm_compute. reflexivity.
Defined.



(** X17.  The Gantt chart of the schedule of a returned route, when no
    client is called 'DEPOT', never fails to read the times the schedule
    wrote and has one line per location: the start and every meeting, in
    the order of the route; the return to the office is not drawn.  Each
    line shows the arrival of its stop as a time of day, and as long as
    that arrival is before midnight its bar has one dash for every ten full
    minutes of the solver's arrival time. *)
Theorem gantt_draws_the_route :
  forall format_address search fuel data time_limit sol clients config dm tm
         hm rows,
    sound search ->
    solve search fuel data time_limit = Returns (Some sol) ->
    depot data = 0 ->
    List.length (distance_matrix data) = S (List.length clients) ->
    (forall client, In client clients ->
       Main.client_id client <> "DEPOT"%string) ->
    Clock.strptime_HM (Main.working_start config) = Some hm ->
    ScheduleGenerator.generate_schedule format_address sol clients config dm tm
      = Some rows ->
    exists lines,
      RouteVisualizer.create_gantt_chart config rows = Some lines /\
      List.length lines = S (List.length clients) /\
      forall k stop,
        k < S (List.length clients) ->
        nth_error (route sol) k = Some stop ->
        exists line,
          nth_error lines k = Some line /\
          RouteVisualizer.shown_time line
            = Clock.strftime_HM (Clock.datetime_of hm + arrival_time stop) /\
          ((Clock.datetime_of hm + arrival_time stop < 1440)%Z ->
           RouteVisualizer.dashes line = Z.to_nat (arrival_time stop / 10)).
Proof.
  intros format_address search fuel data time_limit sol clients config dm tm
         hm rows Hsound Hsol Hdep HN Hids Hhm Hgen.
  destruct (Returned.described search fuel data time_limit sol Hsound Hsol)
    as (m & a & ls & ranges & dep & H).
  cbv zeta in H. rewrite Hdep, HN in H.
  destruct H as (_ & Hmg & _ & _ & _ & _ & _ & _ & _ & Hlen & Hnd & Hin & Esol).
  set (N := S (List.length clients)) in *.
  set (start := Clock.datetime_of hm).
  unfold ScheduleGenerator.generate_schedule in Hgen. rewrite Hhm in Hgen.
  fold start in Hgen.
  destruct (ScheduleFacts.rows_nth _ _ _ _ _ _ _ _ _ _ Hgen) as [Hl Hnth].
  assert (Hnodes : num_nodes (manager m) = N) by (rewrite Hmg; exact HN).
  assert (Hstart : start_node (manager m) = 0) by (rewrite Hmg; exact Hdep).
  assert (Hroute : route sol = map (stop_at m a) ((0 :: ls) ++ [N]))
    by (rewrite Esol; reflexivity).
  assert (Hrl : List.length (route sol) = S N).
  { rewrite Hroute, length_map, length_app, Hlen. simpl. lia. }
  (* the stop behind every row *)
  assert (Hstop : forall k row, nth_error rows k = Some row ->
            exists x, nth_error ((0 :: ls) ++ [N]) k = Some x /\
              ScheduleGenerator.schedule_row format_address sol clients config
                dm tm start k (stop_at m a x) = Some row).
  { intros k row Hk.
    assert (Hsome : nth_error rows k <> None) by congruence.
    apply nth_error_Some in Hsome. rewrite Hl in Hsome.
    destruct (nth_error (route sol) k) as [stop |] eqn:Es;
      [| apply nth_error_None in Es; lia].
    destruct (Hnth k stop Es) as (row' & Hr' & Hmk).
    assert (row' = row) by congruence. subst row'. simpl in Hmk.
    rewrite Hroute, nth_error_map in Es.
    destruct (nth_error ((0 :: ls) ++ [N]) k) as [x |]; [| discriminate].
    simpl in Es. inversion Es; subst stop. now exists x. }
  (* which rows are drawn *)
  assert (Hdrawn : forall k row, nth_error rows k = Some row ->
            if k <? N
            then exists line,
                   RouteVisualizer.gantt_line start row = Some (Some line)
            else RouteVisualizer.gantt_line start row = Some None).
  { intros k row Hk. destruct (Hstop k row Hk) as (x & Hx & Hmk).
    destruct (GanttFacts.gantt_line_made _ _ _ _ _ _ _ _ _ _ start Hmk)
      as (line & Hseq & _ & _ & Hline).
    rewrite Hline, Hseq.
    destruct (Nat.ltb_spec k N) as [Hlt | Hge].
    - exists line.
      destruct k as [| k]; [rewrite orb_true_r; reflexivity |].
      rewrite nth_error_app1 in Hx by (rewrite Hlen; lia).
      simpl in Hx. apply nth_error_In in Hx.
      assert (Hx0 : 0 < x < N).
      { split.
        - destruct x; [| lia]. apply NoDup_cons_iff in Hnd. tauto.
        - apply Hin. now right. }
      destruct (ScheduleFacts.row_kind _ _ _ _ _ _ _ _ _ _ Hmk)
        as [(H0 & _) | [(H0 & _) | (_ & client & Hc & Hid & _)]].
      + simpl in H0. unfold IndexToNode in H0. rewrite Hnodes in H0.
        rewrite (proj2 (Nat.ltb_lt x N) (proj2 Hx0)) in H0. lia.
      + simpl in H0. unfold IndexToNode in H0. rewrite Hnodes in H0.
        rewrite (proj2 (Nat.ltb_lt x N) (proj2 Hx0)) in H0. lia.
      + apply nth_error_In, Hids in Hc. rewrite Hid.
        apply String.eqb_neq in Hc. rewrite Hc. reflexivity.
    - assert (Hk' : k = N).
      { assert (Hsome : nth_error ((0 :: ls) ++ [N]) k <> None) by congruence.
        apply nth_error_Some in Hsome. rewrite length_app, Hlen in Hsome.
        simpl in Hsome. lia. }
      subst k.
      rewrite nth_error_app2, Hlen, Nat.sub_diag in Hx by lia.
      simpl in Hx. inversion Hx; subst x.
      destruct (ScheduleFacts.row_kind _ _ _ _ _ _ _ _ _ _ Hmk)
        as [(_ & Hi & _) | [(_ & _ & Hid & _) | (Hloc & _)]].
      + unfold N in Hi. discriminate.
      + rewrite Hid. simpl.
        destruct (Nat.eqb_spec (List.length clients + 1) 0); [lia | reflexivity].
      + exfalso. apply Hloc. simpl. unfold IndexToNode.
        rewrite Hnodes, Hstart. now rewrite Nat.ltb_irrefl. }
  destruct (GanttFacts.gantt_prefix start rows N Hdrawn) as (lines & Hg & Hgl & Hgn);
    [rewrite Hl; lia |].
  exists lines. split; [| split; [exact Hgl |]].
  - unfold RouteVisualizer.create_gantt_chart. rewrite Hhm. exact Hg.
  - intros k stop Hk Hs.
    destruct (Hnth k stop Hs) as (row & Hr & Hmk). simpl in Hmk.
    destruct (Hgn k row Hk Hr) as (line & Hline & Hgantt).
    exists line. split; [exact Hline |].
    destruct (GanttFacts.gantt_line_made _ _ _ _ _ _ _ _ _ _ start Hmk)
      as (line' & _ & Hshown & Hdash & Hmade).
    rewrite Hgantt in Hmade.
    destruct (negb _ || _); [| discriminate].
    inversion Hmade; subst line'.
    split; [exact Hshown |].
    intros Hday. rewrite Hdash.
    pose proof (ClockFacts.datetime_of_bound _ _ Hhm) as Hs0.
    destruct (Returned.arrivals search fuel data time_limit sol Hsound Hsol stop
                (nth_error_In _ _ Hs)) as [[Ha0 _] _].
    fold start in Hs0. rewrite Z.mod_small by lia.
    f_equal. f_equal. lia.
Qed.

Lemma gantt_draws_the_route_witness :
  exists rows,
    sound (proposing Morning.plan) /\
    solve (proposing Morning.plan) 3 Morning.data 30
      = Returns (Some Morning.solution) /\
    depot Morning.data = 0 /\
    List.length (distance_matrix Morning.data)
      = S (List.length Morning.clients_df) /\
    (forall client, In client Morning.clients_df ->
       Main.client_id client <> "DEPOT"%string) /\
    Clock.strptime_HM (Main.working_start Morning.config) = Some (9, 0) /\
    ScheduleGenerator.generate_schedule Morning.address Morning.solution
      Morning.clients_df Morning.config Morning.distance_km Morning.duration_min
      = Some rows /\
    exists lines,
      RouteVisualizer.create_gantt_chart Morning.config rows = Some lines /\
      List.length lines = S (List.length Morning.clients_df) /\
      forall k stop,
        k < S (List.length Morning.clients_df) ->
        nth_error (route Morning.solution) k = Some stop ->
        exists line,
          nth_error lines k = Some line /\
          RouteVisualizer.shown_time line
            = Clock.strftime_HM (Clock.datetime_of (9, 0) + arrival_time stop) /\
          ((Clock.datetime_of (9, 0)%nat + arrival_time stop < 1440)%Z ->
           RouteVisualizer.dashes line = Z.to_nat (arrival_time stop / 10)).
Proof.
  assert (Hids : forall client, In client Morning.clients_df ->
            Main.client_id client <> "DEPOT"%string).
  { intros client [<- | [<- | []]]; discriminate. }
  eexists.
  split; [apply Solved.proposing_sound |].
  split; [vm_compute; reflexivity |].
  split; [reflexivity |].
  split; [reflexivity |].
  split; [exact Hids |].
  split; [reflexivity |].
  split; [vm_compute; reflexivity |].
  apply (gantt_draws_the_route Morning.address (proposing Morning.plan) 3
           Morning.data 30 Morning.solution Morning.clients_df Morning.config
           Morning.distance_km Morning.duration_min (9, 0)).
  - apply Solved.proposing_sound.
  - vm_compute. reflexivity.
  - reflexivity.
  - reflexivity.
  - exact Hids.
  - reflexivity.
  - vm_compute. reflexivity.
Defined.


End Extra.
